(** * The Athena query tool: template binding, polling and result shaping

    A shallow embedding of [athena_query_lambda.py]: the table of predefined
    queries, [str.format] on the fragment the table uses, the polling loop of
    [execute_athena_query] and the dispatcher [lambda_handler].

    Python dictionaries that are only read ([event], [custom]) are finite
    maps from strings to strings; dictionaries that are built and returned
    keep their insertion order and are association lists with unique keys.
    Calls to the Athena client and to [time.sleep] are recorded in a trace,
    so that the number and the order of the calls can be stated.  The
    logging calls have no effect on the result and are left out. *)

From Stdlib Require Import Ascii String.
From stdpp Require Import gmap strings list.

Local Open Scope char_scope.

(** ** Characters and strings *)

Definition lbrace : ascii := "{".
Definition rbrace : ascii := "}".
Definition squote : ascii := "039".
Definition dquote : ascii := "034".
Definition backslash : ascii := "092".

Definition str1 (c : ascii) : string := String c EmptyString.

Fixpoint str_mem (c : ascii) (s : string) : bool :=
  match s with
  | EmptyString => false
  | String c' s' => Ascii.eqb c c' || str_mem c s'
  end.

(** [s.startswith(p)] *)
Fixpoint starts_with (p s : string) : bool :=
  match p, s with
  | EmptyString, _ => true
  | String _ _, EmptyString => false
  | String a p', String b s' => Ascii.eqb a b && starts_with p' s'
  end.

(** [s.find(sub)]: the lowest index at which [sub] occurs in [s]. *)
Fixpoint str_find (sub s : string) : option nat :=
  if starts_with sub s then Some 0
  else match s with
       | EmptyString => None
       | String _ s' => S <$> str_find sub s'
       end.

(** The slices [s[n:]] and [s[:n]]. *)
Fixpoint str_from (n : nat) (s : string) : string :=
  match n, s with
  | 0, _ => s
  | S _, EmptyString => EmptyString
  | S n', String _ s' => str_from n' s'
  end.

Fixpoint str_upto (n : nat) (s : string) : string :=
  match n, s with
  | 0, _ => EmptyString
  | S _, EmptyString => EmptyString
  | S n', String c s' => String c (str_upto n' s')
  end.

(** [repr] of a [str], as [str(KeyError(key))] prints the key.  The
    definition follows Python on ASCII strings; it keeps the bytes above
    127, which Python escapes when they are not printable, so the text of a
    [KeyError] is stated in the properties for ASCII keys only. *)
Definition hex_digit (n : nat) : ascii :=
  match n with
  | 0 => "0" | 1 => "1" | 2 => "2" | 3 => "3" | 4 => "4" | 5 => "5"
  | 6 => "6" | 7 => "7" | 8 => "8" | 9 => "9" | 10 => "a" | 11 => "b"
  | 12 => "c" | 13 => "d" | 14 => "e" | _ => "f"
  end.

Definition repr_char (quote c : ascii) : string :=
  let n := nat_of_ascii c in
  if Ascii.eqb c backslash then String backslash (str1 backslash)
  else if Ascii.eqb c quote then String backslash (str1 quote)
  else if (n =? 10)%nat then String backslash (str1 "n")
  else if (n =? 13)%nat then String backslash (str1 "r")
  else if (n =? 9)%nat then String backslash (str1 "t")
  else if (n <? 32)%nat || (n =? 127)%nat then
    String backslash (String "x"
      (String (hex_digit (n / 16)) (str1 (hex_digit (n mod 16)))))
  else str1 c.

Fixpoint repr_body (quote : ascii) (s : string) : string :=
  match s with
  | EmptyString => EmptyString
  | String c s' => repr_char quote c +:+ repr_body quote s'
  end.

Definition py_repr (s : string) : string :=
  let quote :=
    if str_mem squote s && negb (str_mem dquote s) then dquote else squote in
  String quote (repr_body quote s +:+ str1 quote).

Local Close Scope char_scope.

(** ** Exceptions and results *)

Inductive exception : Type :=
| KeyError (key : string)
| ValueError (msg : string)
| IndexError (msg : string)
| AttributeError (msg : string)
| TypeError (msg : string)
| ClientError (msg : string).

(** [str(e)] *)
Definition str_exception (e : exception) : string :=
  match e with
  | KeyError key => py_repr key
  | ValueError msg | IndexError msg | AttributeError msg
  | TypeError msg | ClientError msg => msg
  end.

(** The outcome of a Python expression: a value, a raised exception, or
    [Unmodelled] when the expression leaves the modelled fragment of
    [str.format]. *)
Inductive outcome (A : Type) : Type :=
| Return (a : A)
| Raise (e : exception)
| Unmodelled.
Arguments Return {A} a.
Arguments Raise {A} e.
Arguments Unmodelled {A}.

(** ** Python values that end up in a response *)

#[warnings="-register-all"]
Inductive pyval : Type :=
| PStr (s : string)
| PBool (b : bool)
| PInt (n : nat)
| PList (l : list pyval)
| PDict (d : list (string * pyval)).

(** Insertion-ordered dictionaries: [d[k] = v] overwrites in place when the
    key is present and appends otherwise. *)
Section Dict.
Context {V : Type}.

Fixpoint dict_get (k : string) (d : list (string * V)) : option V :=
  match d with
  | [] => None
  | (k', v) :: d' => if decide (k = k') then Some v else dict_get k d'
  end.

Fixpoint dict_set (k : string) (v : V) (d : list (string * V))
  : list (string * V) :=
  match d with
  | [] => [(k, v)]
  | (k', v') :: d' =>
      if decide (k = k') then (k, v) :: d' else (k', v') :: dict_set k v d'
  end.

Definition dict_keys (d : list (string * V)) : list string := d.*1.
End Dict.

(** [d[k]] on a value *)
Definition getitem (d : pyval) (k : string) : outcome pyval :=
  match d with
  | PDict kvs =>
      match dict_get k kvs with
      | Some v => Return v
      | None => Raise (KeyError k)
      end
  | _ => Raise (TypeError "object is not subscriptable")
  end.

(** Truth value of a Python object *)
Definition truthy (v : pyval) : bool :=
  match v with
  | PBool b => b
  | PStr s => negb (bool_decide (s = EmptyString))
  | PInt n => negb (n =? 0)
  | PList l => negb (bool_decide (length l = 0))
  | PDict d => negb (bool_decide (length d = 0))
  end.

(** ** [str.format] with keyword arguments only

    The template is scanned from left to right, as CPython's markup iterator
    does: literal text, the escapes [{{] and [}}], and replacement fields
    [{name}].  The pieces are rendered in order, so the first problem met in
    template order decides the outcome.  Fields with a conversion ([!]), a
    format specification ([:]), attribute or index access ([.], [[]),
    positional or auto-numbered fields and field names that do not start
    with an ASCII character are outside the modelled fragment; none occurs
    in the table of queries. *)

Inductive piece : Type :=
| Text (c : ascii)
| Field (field_name : string).

Inductive scan_end : Type :=
| Done
| Malformed (msg : string)
| Beyond.

#[global] Instance scan_end_eq_dec : EqDecision scan_end.
Proof. solve_decision. Defined.

Inductive scan_mode : Type :=
| InText
| InField (name : string).

Definition is_digit (c : ascii) : bool :=
  let n := nat_of_ascii c in (48 <=? n) && (n <=? 57).

(** A field name that [format] looks up among the keyword arguments.  A
    name that starts with a digit may be a position; only names that start
    with an ASCII character that is not a digit are taken as keywords, the
    others are left outside the fragment. *)
Definition is_keyword_name (name : string) : bool :=
  match name with
  | EmptyString => false
  | String c _ => negb (is_digit c) && (nat_of_ascii c <? 128)
  end.

Definition field_special (c : ascii) : bool :=
  str_mem c ".[!:".

Definition emit (p : piece) (r : list piece * scan_end)
  : list piece * scan_end := (p :: r.1, r.2).

Fixpoint markup (m : scan_mode) (s : string) : list piece * scan_end :=
  match m, s with
  | InText, EmptyString => ([], Done)
  | InText, String c rest =>
      if Ascii.eqb c lbrace then
        match rest with
        | EmptyString =>
            ([], Malformed "Single '{' encountered in format string")
        | String c' rest' =>
            if Ascii.eqb c' lbrace then emit (Text lbrace) (markup InText rest')
            else markup (InField EmptyString) rest
        end
      else if Ascii.eqb c rbrace then
        match rest with
        | EmptyString =>
            ([], Malformed "Single '}' encountered in format string")
        | String c' rest' =>
            if Ascii.eqb c' rbrace then emit (Text rbrace) (markup InText rest')
            else ([], Malformed "Single '}' encountered in format string")
        end
      else emit (Text c) (markup InText rest)
  | InField _, EmptyString =>
      ([], Malformed "expected '}' before end of string")
  | InField name, String c rest =>
      if Ascii.eqb c rbrace then
        if is_keyword_name name then emit (Field name) (markup InText rest)
        else ([], Beyond)
      else if Ascii.eqb c lbrace then
        ([], Malformed "unexpected '{' in field name")
      else if field_special c then ([], Beyond)
      else markup (InField (name +:+ str1 c)) rest
  end.

Fixpoint render (ps : list piece) (fin : scan_end)
    (kwargs : gmap string string) : outcome string :=
  match ps with
  | [] =>
      match fin with
      | Done => Return EmptyString
      | Malformed msg => Raise (ValueError msg)
      | Beyond => Unmodelled
      end
  | Text c :: ps' =>
      match render ps' fin kwargs with
      | Return s => Return (String c s)
      | other => other
      end
  | Field name :: ps' =>
      match kwargs !! name with
      | None => Raise (KeyError name)
      | Some v =>
          match render ps' fin kwargs with
          | Return s => Return (v +:+ s)
          | other => other
          end
      end
  end.

(** [template.format] applied to the keyword arguments [kwargs] *)
Definition str_format (template : string) (kwargs : gmap string string)
  : outcome string :=
  let scanned := markup InText template in
  render scanned.1 scanned.2 kwargs.

Fixpoint field_names (ps : list piece) : list string :=
  match ps with
  | [] => []
  | Text _ :: ps' => field_names ps'
  | Field name :: ps' => name :: field_names ps'
  end.

(** The placeholders of a template, in template order: the fields met
    before the scan ends or stops. *)
Definition placeholders (template : string) : list string :=
  field_names (markup InText template).1.

(** What substitution makes of the pieces when every field has a value. *)
Fixpoint substitute (ps : list piece) (kwargs : gmap string string) : string :=
  match ps with
  | [] => EmptyString
  | Text c :: ps' => String c (substitute ps' kwargs)
  | Field name :: ps' =>
      default EmptyString (kwargs !! name) +:+ substitute ps' kwargs
  end.

Definition is_brace (c : ascii) : bool :=
  Ascii.eqb c lbrace || Ascii.eqb c rbrace.

Fixpoint has_brace (s : string) : bool :=
  match s with
  | EmptyString => false
  | String c s' => is_brace c || has_brace s'
  end.

Definition literal_brace (p : piece) : bool :=
  match p with
  | Text c => is_brace c
  | Field _ => false
  end.

(** ** Configuration and the table of predefined queries *)

Definition ATHENA_DATABASE : string := "your_database_name".
Definition ATHENA_OUTPUT_LOCATION : string :=
  "s3://your-athena-results-bucket/query-results/".

Definition get_sales_summary_template : string :=
"
        SELECT 
            DATE_TRUNC('month', order_date) as month,
            SUM(total_amount) as total_sales,
            COUNT(DISTINCT order_id) as order_count
        FROM sales_table
        WHERE order_date >= DATE_ADD('month', -6, CURRENT_DATE)
        GROUP BY DATE_TRUNC('month', order_date)
        ORDER BY month DESC
    ".

Definition get_top_customers_template : string :=
"
        SELECT 
            customer_id,
            customer_name,
            SUM(total_amount) as lifetime_value,
            COUNT(order_id) as order_count
        FROM sales_table
        WHERE order_date >= DATE_ADD('year', -1, CURRENT_DATE)
        GROUP BY customer_id, customer_name
        ORDER BY lifetime_value DESC
        LIMIT {limit}
    ".

Definition get_product_performance_template : string :=
"
        SELECT 
            product_id,
            product_name,
            SUM(quantity) as units_sold,
            SUM(total_amount) as revenue,
            AVG(unit_price) as avg_price
        FROM sales_table
        WHERE order_date >= DATE_ADD('month', -{months}, CURRENT_DATE)
        GROUP BY product_id, product_name
        ORDER BY revenue DESC
        LIMIT {limit}
    ".

Definition get_regional_breakdown_template : string :=
"
        SELECT 
            region,
            COUNT(DISTINCT customer_id) as unique_customers,
            SUM(total_amount) as total_revenue,
            AVG(total_amount) as avg_order_value
        FROM sales_table
        WHERE order_date >= DATE_ADD('month', -{months}, CURRENT_DATE)
        GROUP BY region
        ORDER BY total_revenue DESC
    ".

Definition get_inventory_status_template : string :=
"
        SELECT 
            product_id,
            product_name,
            current_stock,
            reorder_level,
            CASE 
                WHEN current_stock <= reorder_level THEN 'LOW'
                WHEN current_stock <= reorder_level * 1.5 THEN 'MEDIUM'
                ELSE 'GOOD'
            END as stock_status
        FROM inventory_table
        WHERE warehouse_id = '{warehouse_id}'
        ORDER BY stock_status, current_stock ASC
    ".

Definition get_order_details_template : string :=
"
        SELECT 
            o.order_id,
            o.order_date,
            o.customer_name,
            o.total_amount,
            o.status,
            oi.product_name,
            oi.quantity,
            oi.unit_price
        FROM orders_table o
        JOIN order_items_table oi ON o.order_id = oi.order_id
        WHERE o.order_id = '{order_id}'
    ".

Definition PREDEFINED_QUERIES : list (string * string) :=
  [ ("get_sales_summary", get_sales_summary_template);
    ("get_top_customers", get_top_customers_template);
    ("get_product_performance", get_product_performance_template);
    ("get_regional_breakdown", get_regional_breakdown_template);
    ("get_inventory_status", get_inventory_status_template);
    ("get_order_details", get_order_details_template) ].

(** ** The Athena client and the trace of calls *)

Inductive call : Type :=
| StartQueryExecution (QueryString Database OutputLocation : string)
| GetQueryExecution (QueryExecutionId : string)
| GetQueryResults (QueryExecutionId : string) (MaxResults : nat)
| Sleep (seconds : nat).

(** [query_status['QueryExecution']['Status']] *)
Record QueryStatus : Type := {
  State : string;
  StateChangeReason : option string
}.

(** [result['ResultSet']]: the column labels of [ResultSetMetadata] and the
    rows; a cell is the [VarCharValue] of its datum, when there is one. *)
Record ResultSet : Type := {
  ColumnInfo : list string;
  Rows : list (list (option string))
}.

(** A simulated service.  [get_query_execution id n] is the answer to the
    status poll issued after [n] earlier polls of the same execution. *)
Record AthenaClient : Type := {
  start_query_execution : string → string → string → exception + string;
  get_query_execution : string → nat → exception + QueryStatus;
  get_query_results : string → nat → exception + ResultSet
}.

(** A computation yields an outcome and the calls it made, in order. *)
Definition M (A : Type) : Type := (outcome A * list call)%type.

Definition ret {A} (a : A) : M A := (Return a, []).
Definition raise {A} (e : exception) : M A := (Raise e, []).
Definition lift {A} (r : outcome A) : M A := (r, []).

Definition bind {A B} (m : M A) (f : A → M B) : M B :=
  match m with
  | (Return a, calls) => let rest := f a in (rest.1, calls ++ rest.2)
  | (Raise e, calls) => (Raise e, calls)
  | (Unmodelled, calls) => (Unmodelled, calls)
  end.

(** [try: body / except Exception as e: handler e] *)
Definition try_except {A} (body : M A) (handler : exception → M A) : M A :=
  match body with
  | (Raise e, calls) => let rest := handler e in (rest.1, calls ++ rest.2)
  | _ => body
  end.

(** One call to the outside world and its reply. *)
Definition invoke {A} (c : call) (reply : exception + A) : M A :=
  (match reply with inl e => Raise e | inr a => Return a end, [c]).

#[global] Instance M_ret : MRet M := @ret.
#[global] Instance M_bind : MBind M := λ A B f m, bind m f.

(** ** [execute_athena_query] *)

Definition max_attempts : nat := 60.

(** The inner loop over [enumerate(columns)] filling [row_data]. *)
Fixpoint fill_row (columns : list string) (i : nat)
    (data : list (option string)) (row_data : list (string * pyval))
  : outcome (list (string * pyval)) :=
  match columns with
  | [] => Return row_data
  | col :: columns' =>
      match data !! i with
      | None => Raise (IndexError "list index out of range")
      | Some cell =>
          let value := default EmptyString cell in
          fill_row columns' (S i) data (dict_set col (PStr value) row_data)
      end
  end.

(** The loop over the rows after the header, appending to [rows]. *)
Fixpoint parse_rows (columns : list string)
    (data_rows : list (list (option string))) (rows : list pyval)
  : outcome (list pyval) :=
  match data_rows with
  | [] => Return rows
  | row :: data_rows' =>
      match fill_row columns 0 row [] with
      | Return row_data =>
          parse_rows columns data_rows' (rows ++ [PDict row_data])
      | Raise e => Raise e
      | Unmodelled => Unmodelled
      end
  end.

Definition query_success (columns : list string) (rows : list pyval)
  : pyval :=
  PDict [ ("success", PBool true);
          ("columns", PList (PStr <$> columns));
          ("rows", PList rows);
          ("row_count", PInt (length rows)) ].

Definition query_failure (error : string) : pyval :=
  PDict [ ("success", PBool false); ("error", PStr error) ].

(** Parsing of the fetched results: the header row is skipped. *)
Definition parse_results (result : ResultSet) : outcome pyval :=
  let columns := ColumnInfo result in
  match parse_rows columns (drop 1 (Rows result)) [] with
  | Return rows => Return (query_success columns rows)
  | Raise e => Raise e
  | Unmodelled => Unmodelled
  end.

(** The loop [while attempt < max_attempts], by recursion on
    [remaining = max_attempts - attempt]. *)
Fixpoint wait_for_query (athena : AthenaClient) (query_execution_id : string)
    (remaining attempt : nat) : M pyval :=
  match remaining with
  | 0 => ret (query_failure "Query timeout - exceeded maximum wait time")
  | S remaining' =>
      query_status ← invoke (GetQueryExecution query_execution_id)
        (get_query_execution athena query_execution_id attempt);
      let status := State query_status in
      if bool_decide (status = "SUCCEEDED") then
        result ← invoke (GetQueryResults query_execution_id 100)
          (get_query_results athena query_execution_id 100);
        lift (parse_results result)
      else if bool_decide (status = "FAILED" ∨ status = "CANCELLED") then
        let error_message :=
          default "Unknown error" (StateChangeReason query_status) in
        ret (query_failure error_message)
      else
        _ ← invoke (Sleep 1) (inr ());
        wait_for_query athena query_execution_id remaining' (S attempt)
  end.

Definition execute_athena_query (athena : AthenaClient) (query : string)
  : M pyval :=
  try_except
    (query_execution_id ←
       invoke (StartQueryExecution query ATHENA_DATABASE ATHENA_OUTPUT_LOCATION)
         (start_query_execution athena query ATHENA_DATABASE
            ATHENA_OUTPUT_LOCATION);
     wait_for_query athena query_execution_id max_attempts 0)
    (λ e, ret (query_failure (str_exception e))).

(** ** [lambda_handler] *)

Record ClientContext : Type := {
  custom : option (gmap string string)
}.

Record LambdaContext : Type := {
  client_context : option ClientContext
}.

Definition delimiter : string := "___".

(** [context.client_context.custom['bedrockAgentCoreToolName']] *)
Definition original_tool_name (context : LambdaContext) : outcome string :=
  match client_context context with
  | None =>
      Raise (AttributeError "'NoneType' object has no attribute 'custom'")
  | Some cc =>
      match custom cc with
      | None => Raise (TypeError "'NoneType' object is not subscriptable")
      | Some m =>
          match m !! "bedrockAgentCoreToolName" with
          | None => Raise (KeyError "bedrockAgentCoreToolName")
          | Some name => Return name
          end
      end
  end.

(** [s.index(sub)] *)
Definition str_index (s sub : string) : outcome nat :=
  match str_find sub s with
  | Some i => Return i
  | None => Raise (ValueError "substring not found")
  end.

Definition unknown_tool (tool_name : string) : pyval :=
  PDict [ ("success", PBool false);
          ("error", PStr ("Unknown tool: " +:+ tool_name)) ].

Definition missing_parameter (e : exception) : pyval :=
  PDict [ ("success", PBool false);
          ("error", PStr ("Missing required parameter: " +:+ str_exception e)) ].

Definition success_envelope (data columns row_count : pyval) : pyval :=
  PDict [ ("status", PStr "success");
          ("data", data);
          ("metadata", PDict [ ("columns", columns);
                               ("row_count", row_count) ]) ].

Definition error_envelope (error : pyval) : pyval :=
  PDict [ ("status", PStr "error"); ("error", error) ].

(** The body of the handler once [tool_name] is known. *)
Definition handle_tool (athena : AthenaClient) (event : gmap string string)
    (tool_name : string) : M pyval :=
  match dict_get tool_name PREDEFINED_QUERIES with
  | None => ret (unknown_tool tool_name)
  | Some query_template =>
      match str_format query_template event with
      | Raise (KeyError key) => ret (missing_parameter (KeyError key))
      | Raise e => raise e
      | Unmodelled => lift Unmodelled
      | Return query =>
          result ← execute_athena_query athena query;
          success ← lift (getitem result "success");
          if truthy success then
            rows ← lift (getitem result "rows");
            columns ← lift (getitem result "columns");
            row_count ← lift (getitem result "row_count");
            ret (success_envelope rows columns row_count)
          else
            error ← lift (getitem result "error");
            ret (error_envelope error)
      end
  end.

Definition lambda_handler (athena : AthenaClient)
    (event : gmap string string) (context : LambdaContext) : M pyval :=
  try_except
    (name ← lift (original_tool_name context);
     i ← lift (str_index name delimiter);
     let tool_name := str_from (i + String.length delimiter) name in
     handle_tool athena event tool_name)
    (λ e, ret (error_envelope (PStr (str_exception e)))).

(** ** Vocabulary of the statements *)

(** *** Polling *)

Definition non_terminal (status : string) : Prop :=
  status ≠ "SUCCEEDED" ∧ status ≠ "FAILED" ∧ status ≠ "CANCELLED".

(** The service answers poll number [attempt] (counted from 0) with a
    status that is not terminal. *)
Definition running (athena : AthenaClient) (id : string) (attempt : nat)
  : Prop :=
  ∃ st, get_query_execution athena id attempt = inr st
        ∧ non_terminal (State st).

(** [n] polls, each followed by a sleep of one second. *)
Fixpoint polls_before (id : string) (n : nat) : list call :=
  match n with
  | 0 => []
  | S n' => GetQueryExecution id :: Sleep 1 :: polls_before id n'
  end.

Definition is_poll (c : call) : bool :=
  match c with GetQueryExecution _ => true | _ => false end.
Definition is_fetch (c : call) : bool :=
  match c with GetQueryResults _ _ => true | _ => false end.
Definition is_start (c : call) : bool :=
  match c with StartQueryExecution _ _ _ => true | _ => false end.

Definition count (p : call → bool) (calls : list call) : nat :=
  length (List.filter p calls).

(** The fetch of the results and their parsing, after a [SUCCEEDED]. *)
Definition fetch_results (athena : AthenaClient) (id : string) : M pyval :=
  match get_query_results athena id 100 with
  | inl e => (Raise e, [GetQueryResults id 100])
  | inr result => (parse_results result, [GetQueryResults id 100])
  end.

(** *** Templates *)

(** The text a list of pieces was scanned from, when no escape occurs. *)
Fixpoint unparse (ps : list piece) : string :=
  match ps with
  | [] => EmptyString
  | Text c :: ps' => String c (unparse ps')
  | Field name :: ps' =>
      String lbrace (name +:+ String rbrace (unparse ps'))
  end.

(** Every template of the table lies in the modelled fragment: the scan
    reaches the end, the pieces spell the template back, and no literal
    piece is a brace. *)
Definition template_ok (template : string) : bool :=
  let scanned := markup InText template in
  bool_decide (scanned.2 = Done)
  && bool_decide (unparse scanned.1 = template)
  && forallb (λ p, negb (literal_brace p)) scanned.1.

(** *** Responses *)

Definition is_str (v : pyval) : bool :=
  match v with PStr _ => true | _ => false end.

(** A row of the output: a dictionary from labels to strings. *)
Definition is_row (v : pyval) : bool :=
  match v with
  | PDict d => forallb (λ kv, is_str kv.2) d
  | _ => false
  end.

Definition is_int (v : pyval) : bool :=
  match v with PInt _ => true | _ => false end.

Definition is_str_list (v : pyval) : bool :=
  match v with PList l => forallb is_str l | _ => false end.

Definition is_data (v : pyval) : bool :=
  match v with PList l => forallb is_row l | _ => false end.

(** A key of a dictionary is one of the allowed keys and its value has the
    type that goes with the key. *)
Definition field_ok (allowed : list (string * (pyval → bool)))
    (kv : string * pyval) : bool :=
  match dict_get kv.1 allowed with
  | Some check => check kv.2
  | None => false
  end.

Definition has_key (k : string) (d : list (string * pyval)) : bool :=
  match dict_get k d with Some _ => true | None => false end.

(** [{ columns: sequence<string>, row_count: integer }] *)
Definition is_metadata (v : pyval) : bool :=
  match v with
  | PDict d =>
      has_key "columns" d && has_key "row_count" d
      && forallb (field_ok [("columns", is_str_list); ("row_count", is_int)]) d
  | _ => false
  end.

(** [{ status: "success"|"error", data?, metadata?, error? }] *)
Definition conforms_envelope (v : pyval) : bool :=
  match v with
  | PDict d =>
      match dict_get "status" d with
      | Some (PStr s) => bool_decide (s = "success") || bool_decide (s = "error")
      | _ => false
      end
      && forallb (field_ok [ ("status", is_str); ("data", is_data);
                             ("metadata", is_metadata); ("error", is_str) ]) d
  | _ => false
  end.

Definition handler_of_last_resort (e : exception) : M pyval :=
  ret (error_envelope (PStr (str_exception e))).

(** *** Sample services and invocations *)

(** A service that accepts every submission under the handle [q-1],
    answers the polls from a script and serves one result set. *)
Definition scripted_service (script : nat → QueryStatus) (result : ResultSet)
  : AthenaClient :=
  {| start_query_execution := λ _ _ _, inr "q-1";
     get_query_execution := λ _ attempt, inr (script attempt);
     get_query_results := λ _ _, inr result |}.

Definition status (state : string) : QueryStatus :=
  {| State := state; StateChangeReason := None |}.

(** [RUNNING] until poll number [k] (counted from 1), then [final]. *)
Definition settles_at (k : nat) (final : QueryStatus) (attempt : nat)
  : QueryStatus :=
  if S attempt <? k then status "RUNNING" else final.

Definition table_ab : ResultSet :=
  {| ColumnInfo := ["a"; "b"];
     Rows := [ [Some "a"; Some "b"]; [Some "1"; Some "2"];
               [Some "3"; Some "4"] ] |}.

Definition invocation (name : string) : LambdaContext :=
  {| client_context :=
       Some {| custom := Some {[ "bedrockAgentCoreToolName" := name ]} |} |}.

(** The query bound for [get_inventory_status] and warehouse WH001. *)
Definition inventory_query_WH001 : string :=
  Eval vm_compute in
    match str_format get_inventory_status_template
            {[ "warehouse_id" := "WH001" ]} with
    | Return query => query
    | _ => EmptyString
    end.

Definition table_short_row : ResultSet :=
  {| ColumnInfo := ["a"; "b"];
     Rows := [ [Some "a"; Some "b"]; [Some "1"] ] |}.

Definition table_same_label : ResultSet :=
  {| ColumnInfo := ["a"; "a"];
     Rows := [ [Some "a"; Some "a"]; [Some "1"; Some "2"] ] |}.

(** *** Time spent sleeping *)

Fixpoint total_sleep (calls : list call) : nat :=
  match calls with
  | [] => 0
  | Sleep seconds :: calls' => seconds + total_sleep calls'
  | _ :: calls' => total_sleep calls'
  end.

(** ** The tool schemas registered with the gateway

    [get_tool_schemas] of [setup_gateway_with_identity.py]: the list of
    dictionaries handed to the gateway as the inline tool schema of the
    Lambda target. *)

Definition get_tool_schemas : list pyval :=
  [ PDict
      [ ("name", PStr "get_sales_summary");
        ("description", PStr "Get a summary of sales data for the last 6 months, grouped by month");
        ("inputSchema", PDict
          [ ("type", PStr "object");
            ("properties", PDict []);
            ("required", PList []) ]) ];
    PDict
      [ ("name", PStr "get_top_customers");
        ("description", PStr "Get top customers by lifetime value with their order statistics");
        ("inputSchema", PDict
          [ ("type", PStr "object");
            ("properties", PDict
              [ ("limit", PDict
                  [ ("type", PStr "string");
                    ("description", PStr "Number of top customers to return (default: 10)") ]) ]);
            ("required", PList []) ]) ];
    PDict
      [ ("name", PStr "get_product_performance");
        ("description", PStr "Get product performance metrics including units sold and revenue");
        ("inputSchema", PDict
          [ ("type", PStr "object");
            ("properties", PDict
              [ ("months", PDict
                  [ ("type", PStr "string");
                    ("description", PStr "Number of months to analyze (e.g., '3', '6', '12')") ]);
                ("limit", PDict
                  [ ("type", PStr "string");
                    ("description", PStr "Number of products to return (default: 20)") ]) ]);
            ("required", PList [ PStr "months" ]) ]) ];
    PDict
      [ ("name", PStr "get_regional_breakdown");
        ("description", PStr "Get sales breakdown by region with customer and revenue metrics");
        ("inputSchema", PDict
          [ ("type", PStr "object");
            ("properties", PDict
              [ ("months", PDict
                  [ ("type", PStr "string");
                    ("description", PStr "Number of months to analyze (e.g., '3', '6', '12')") ]) ]);
            ("required", PList [ PStr "months" ]) ]) ];
    PDict
      [ ("name", PStr "get_inventory_status");
        ("description", PStr "Get current inventory status for a specific warehouse");
        ("inputSchema", PDict
          [ ("type", PStr "object");
            ("properties", PDict
              [ ("warehouse_id", PDict
                  [ ("type", PStr "string");
                    ("description", PStr "The warehouse ID to check inventory for") ]) ]);
            ("required", PList [ PStr "warehouse_id" ]) ]) ];
    PDict
      [ ("name", PStr "get_order_details");
        ("description", PStr "Get detailed information about a specific order including line items");
        ("inputSchema", PDict
          [ ("type", PStr "object");
            ("properties", PDict
              [ ("order_id", PDict
                  [ ("type", PStr "string");
                    ("description", PStr "The order ID to retrieve details for") ]) ]);
            ("required", PList [ PStr "order_id" ]) ]) ] ].

(** [v[k]] when [v] is a dictionary with the key [k] *)
Definition pyget (k : string) (v : pyval) : option pyval :=
  match v with
  | PDict d => dict_get k d
  | _ => None
  end.

Definition schema_name (schema : pyval) : option string :=
  match pyget "name" schema with
  | Some (PStr name) => Some name
  | _ => None
  end.

(** The parameters a schema declares: the keys of
    [inputSchema.properties]. *)
Definition schema_properties (schema : pyval) : list string :=
  match pyget "inputSchema" schema ≫= pyget "properties" with
  | Some (PDict d) => dict_keys d
  | _ => []
  end.

(** The parameters a schema requires: [inputSchema.required]. *)
Definition schema_required (schema : pyval) : list string :=
  match pyget "inputSchema" schema ≫= pyget "required" with
  | Some (PList l) =>
      omap (λ v, match v with PStr s => Some s | _ => None end) l
  | _ => []
  end.

(** A schema names a tool of the table and declares exactly the
    placeholders of its template. *)
Definition schema_matches (schema : pyval) : bool :=
  match schema_name schema with
  | Some tool =>
      match dict_get tool PREDEFINED_QUERIES with
      | Some template =>
          forallb (λ p, bool_decide (p ∈ schema_properties schema))
            (placeholders template)
          && forallb (λ p, bool_decide (p ∈ placeholders template))
               (schema_properties schema)
      | None => false
      end
  | None => false
  end.

(** *** Texts of exceptions *)

(** A character that [repr] prints as it is between single quotes:
    printable ASCII other than the single quote and the backslash. *)
Definition plain_char (c : ascii) : bool :=
  let n := nat_of_ascii c in
  (32 <=? n) && (n <=? 126)
  && negb (Ascii.eqb c squote) && negb (Ascii.eqb c backslash).

Fixpoint plain_key (s : string) : bool :=
  match s with
  | EmptyString => true
  | String c s' => plain_char c && plain_key s'
  end.

(** What [str(e)] is in Python: the message of the exception, and for a
    [KeyError] the key between single quotes, when the key is made of plain
    characters. *)
Inductive exception_text : exception → string → Prop :=
| text_KeyError (key : string) :
    plain_key key = true → exception_text (KeyError key) ("'" +:+ key +:+ "'")
| text_ValueError (msg : string) : exception_text (ValueError msg) msg
| text_IndexError (msg : string) : exception_text (IndexError msg) msg
| text_AttributeError (msg : string) : exception_text (AttributeError msg) msg
| text_TypeError (msg : string) : exception_text (TypeError msg) msg
| text_ClientError (msg : string) : exception_text (ClientError msg) msg.

(** *** Materialized rows *)

(** An output row for a data row: a dictionary whose keys are the column
    labels, each once, the value under a label being the cell at the last
    position of the label, or the empty string when that cell has no
    value. *)
Definition materialized_row (columns : list string)
    (row : list (option string)) (out : pyval) : Prop :=
  ∃ row_data,
    out = PDict row_data
    ∧ NoDup (dict_keys row_data)
    ∧ (∀ col, col ∈ dict_keys row_data ↔ col ∈ columns)
    ∧ ∀ j col,
        columns !! j = Some col →
        (∀ j', j < j' → columns !! j' ≠ Some col) →
        ∃ cell, row !! j = Some cell
                ∧ dict_get col row_data
                  = Some (PStr (default EmptyString cell)).

(** * Properties *)

(** ** Strings *)

Lemma app_String (c : ascii) (s t : string) :
  String c s +:+ t = String c (s +:+ t).
Proof. reflexivity. Qed.

Lemma app_empty (t : string) : EmptyString +:+ t = t.
Proof. reflexivity. Qed.

Lemma starts_with_app (p r : string) : starts_with p (p +:+ r) = true.
Proof.
  induction p as [|a p IH]; [done|].
  rewrite app_String. simpl. by rewrite Ascii.eqb_refl, IH.
Qed.

Lemma starts_with_split (p s : string) :
  starts_with p s = true → s = p +:+ str_from (String.length p) s.
Proof.
  revert s. induction p as [|a p IH]; intros s H; simpl in *; [done|].
  destruct s as [|b s]; [done|].
  apply andb_true_iff in H as [Hab Hps].
  apply Ascii.eqb_eq in Hab as ->. rewrite app_String. f_equal. by apply IH.
Qed.

Lemma str_upto_from (n : nat) (s : string) :
  s = str_upto n s +:+ str_from n s.
Proof.
  revert s. induction n as [|n IH]; intros [|c s]; simpl; try done.
  rewrite app_String. f_equal. apply IH.
Qed.

Lemma str_from_add (n m : nat) (s : string) :
  str_from (n + m) s = str_from m (str_from n s).
Proof.
  revert s. induction n as [|n IH]; intros s; simpl; [done|].
  destruct s as [|c s]; [by destruct m|]. apply IH.
Qed.

Lemma str_find_Some (sub s : string) (i : nat) :
  str_find sub s = Some i →
  starts_with sub (str_from i s) = true
  ∧ ∀ j, j < i → starts_with sub (str_from j s) = false.
Proof.
  revert i. induction s as [|c s IH]; intros i; simpl.
  - destruct (starts_with sub EmptyString) eqn:E; [|done].
    intros [= <-]. split; [done | lia].
  - destruct (starts_with sub (String c s)) eqn:E.
    + intros [= <-]. split; [done | lia].
    + destruct (str_find sub s) as [k|]; [|done].
      intros [= <-]. destruct (IH k eq_refl) as [Hk Hlt].
      split; [done|]. intros [|j] Hj; simpl; [done|]. apply Hlt. lia.
Qed.

Lemma str_find_None (sub s : string) :
  str_find sub s = None → ∀ j, starts_with sub (str_from j s) = false.
Proof.
  induction s as [|c s IH]; simpl.
  - destruct (starts_with sub EmptyString) eqn:E; [done|].
    intros _ [|j]; done.
  - destruct (starts_with sub (String c s)) eqn:E; [done|].
    destruct (str_find sub s) as [k|] eqn:F; [done|].
    intros _ [|j]; simpl; [done|]. by apply IH.
Qed.

Lemma has_brace_app (s t : string) :
  has_brace (s +:+ t) = has_brace s || has_brace t.
Proof.
  induction s as [|c s IH]; [done|].
  rewrite app_String. simpl. by rewrite IH, orb_assoc.
Qed.

(** ** Binding parameters into a template *)

Lemma render_first_missing (ps : list piece) (fin : scan_end)
    (kwargs : gmap string string) (before : list string) (name : string)
    (after : list string) :
  field_names ps = before ++ name :: after →
  (∀ m, m ∈ before → is_Some (kwargs !! m)) →
  kwargs !! name = None →
  render ps fin kwargs = Raise (KeyError name).
Proof.
  revert before. induction ps as [|[c|f] ps IH]; intros before Hf Hb Hn; simpl in *.
  - by destruct before.
  - by rewrite (IH before).
  - destruct before as [|m before]; simplify_eq/=.
    + by rewrite Hn.
    + destruct (Hb m) as [v ->]; [left|].
      rewrite (IH before); [done..| |done].
      intros m' Hm'. apply Hb. by right.
Qed.

Lemma first_missing_exists (names : list string) (kwargs : gmap string string) :
  (∃ p, p ∈ names ∧ kwargs !! p = None) →
  ∃ before name after,
    names = before ++ name :: after
    ∧ (∀ m, m ∈ before → is_Some (kwargs !! m))
    ∧ kwargs !! name = None.
Proof.
  induction names as [|n names IH]; intros (p & Hp & Hnone).
  - by apply elem_of_nil in Hp.
  - destruct (kwargs !! n) as [v|] eqn:E.
    + destruct IH as (before & name & after & -> & Hb & Hn).
      { exists p. split; [|done]. apply elem_of_cons in Hp as [->|]; [congruence|done]. }
      exists (n :: before), name, after. split_and!; [done| |done].
      intros m [->|Hm]%elem_of_cons; [by rewrite E|by apply Hb].
    + exists [], n, names. split_and!; [done| |done].
      intros m Hm. by apply elem_of_nil in Hm.
Qed.

Lemma render_all_present (ps : list piece) (kwargs : gmap string string) :
  (∀ name, name ∈ field_names ps → is_Some (kwargs !! name)) →
  render ps Done kwargs = Return (substitute ps kwargs).
Proof.
  induction ps as [|[c|f] ps IH]; intros H; simpl in *; [done|..].
  - by rewrite IH.
  - destruct (H f) as [v ->]; [left|]. simpl.
    rewrite IH; [done|]. intros n Hn. apply H. by right.
Qed.

Lemma render_agree (ps : list piece) (fin : scan_end)
    (kwargs kwargs' : gmap string string) :
  (∀ name, name ∈ field_names ps → kwargs' !! name = kwargs !! name) →
  render ps fin kwargs' = render ps fin kwargs.
Proof.
  induction ps as [|[c|f] ps IH]; intros H; simpl in *; [done|..].
  - by rewrite IH.
  - rewrite (H f) by left. rewrite IH; [done|].
    intros n Hn. apply H. by right.
Qed.

Lemma substitute_brace_free (ps : list piece) (kwargs : gmap string string) :
  (∀ p, p ∈ ps → literal_brace p = false) →
  (∀ name v, name ∈ field_names ps → kwargs !! name = Some v →
             has_brace v = false) →
  has_brace (substitute ps kwargs) = false.
Proof.
  induction ps as [|[c|f] ps IH]; intros Hl Hv; simpl in *; [done|..].
  - assert (is_brace c = false) as -> by (apply (Hl (Text c)); left).
    apply IH; [|done]. intros p Hp. apply Hl. by right.
  - rewrite has_brace_app. apply orb_false_iff. split.
    + destruct (kwargs !! f) as [v|] eqn:E; simpl; [|done].
      apply (Hv f); [left|done].
    + apply IH.
      * intros p Hp. apply Hl. by right.
      * intros n v Hn. apply Hv. by right.
Qed.

(** The six templates, character for character: their names, lengths and
    placeholders. *)
Example PREDEFINED_QUERIES_summary :
  map (λ kv, (kv.1, String.length kv.2, placeholders kv.2)) PREDEFINED_QUERIES
  = [ ("get_sales_summary", 339, []);
      ("get_top_customers", 356, ["limit"]);
      ("get_product_performance", 385, ["months"; "limit"]);
      ("get_regional_breakdown", 355, ["months"]);
      ("get_inventory_status", 462, ["warehouse_id"]);
      ("get_order_details", 360, ["order_id"]) ].
Proof. vm_compute. reflexivity. Qed.

Lemma PREDEFINED_QUERIES_ok (tool template : string) :
  dict_get tool PREDEFINED_QUERIES = Some template →
  template_ok template = true.
Proof.
  assert (forallb (λ kv, template_ok kv.2) PREDEFINED_QUERIES = true) as Hall
    by (vm_compute; reflexivity).
  intros Hget. rewrite forallb_forall in Hall.
  apply (Hall (tool, template)). apply list_elem_of_In.
  clear Hall. induction PREDEFINED_QUERIES as [|[k v] d IH]; simpl in *; [done|].
  destruct (decide (tool = k)); simplify_eq; [left|right; auto].
Qed.

Lemma template_ok_inv (template : string) :
  template_ok template = true →
  (markup InText template).2 = Done
  ∧ unparse (markup InText template).1 = template
  ∧ ∀ p, p ∈ (markup InText template).1 → literal_brace p = false.
Proof.
  unfold template_ok. intros H.
  apply andb_true_iff in H as [H Hl]. apply andb_true_iff in H as [Hd Hu].
  apply bool_decide_eq_true in Hd, Hu. split_and!; [done..|].
  intros p Hp. rewrite forallb_forall in Hl.
  apply list_elem_of_In, Hl, negb_true_iff in Hp. done.
Qed.

(** ** The trace monad *)

Lemma bind_Return {A B} (a : A) (calls : list call) (f : A → M B) :
  bind (Return a, calls) f = ((f a).1, calls ++ (f a).2).
Proof. reflexivity. Qed.

Lemma bind_Raise {A B} (e : exception) (calls : list call) (f : A → M B) :
  bind (Raise e, calls) f = (Raise e, calls).
Proof. reflexivity. Qed.

Lemma bind_lift_Return {A B} (a : A) (f : A → M B) :
  bind (lift (Return a)) f = f a.
Proof. unfold lift. rewrite bind_Return. by destruct (f a). Qed.

Lemma try_except_Return {A} (a : A) (calls : list call)
    (handler : exception → M A) :
  try_except (Return a, calls) handler = (Return a, calls).
Proof. reflexivity. Qed.

Lemma try_except_Raise {A} (e : exception) (calls : list call)
    (handler : exception → M A) :
  try_except (Raise e, calls) handler
  = ((handler e).1, calls ++ (handler e).2).
Proof. reflexivity. Qed.

(** ** The polling loop *)

Section Polling.
Variable athena : AthenaClient.
Variable id : string.

Lemma wait_zero (attempt : nat) :
  wait_for_query athena id 0 attempt
  = (Return (query_failure "Query timeout - exceeded maximum wait time"), []).
Proof. reflexivity. Qed.

Lemma wait_raise (remaining attempt : nat) (e : exception) :
  get_query_execution athena id attempt = inl e →
  wait_for_query athena id (S remaining) attempt
  = (Raise e, [GetQueryExecution id]).
Proof. intros H. cbn [wait_for_query]. unfold mbind, M_bind, invoke. by rewrite H. Qed.

Lemma wait_succeeded (remaining attempt : nat) (st : QueryStatus) :
  get_query_execution athena id attempt = inr st →
  State st = "SUCCEEDED" →
  wait_for_query athena id (S remaining) attempt
  = ((fetch_results athena id).1,
     GetQueryExecution id :: (fetch_results athena id).2).
Proof.
  intros H Hs. cbn [wait_for_query]. unfold mbind, M_bind, invoke.
  rewrite H, bind_Return. cbv beta.
  rewrite bool_decide_eq_true_2 by done. unfold fetch_results.
  by destruct (get_query_results athena id 100) as [e|rs].
Qed.

Lemma wait_failed (remaining attempt : nat) (st : QueryStatus) :
  get_query_execution athena id attempt = inr st →
  State st = "FAILED" ∨ State st = "CANCELLED" →
  wait_for_query athena id (S remaining) attempt
  = (Return (query_failure
               (default "Unknown error" (StateChangeReason st))),
     [GetQueryExecution id]).
Proof.
  intros H Hs. cbn [wait_for_query]. unfold mbind, M_bind, invoke.
  rewrite H, bind_Return. cbv beta.
  rewrite bool_decide_eq_false_2 by (destruct Hs as [-> | ->]; done).
  by rewrite bool_decide_eq_true_2.
Qed.

Lemma wait_running_step (remaining attempt : nat) :
  running athena id attempt →
  wait_for_query athena id (S remaining) attempt
  = ((wait_for_query athena id remaining (S attempt)).1,
     GetQueryExecution id :: Sleep 1
       :: (wait_for_query athena id remaining (S attempt)).2).
Proof.
  intros (st & H & Hs & Hf & Hc). cbn [wait_for_query].
  unfold mbind, M_bind, invoke. rewrite H, bind_Return. cbv beta.
  rewrite bool_decide_eq_false_2 by done.
  rewrite bool_decide_eq_false_2 by (intros [?|?]; done).
  by rewrite bind_Return.
Qed.

Lemma wait_running (n remaining attempt : nat) :
  (∀ j, j < n → running athena id (attempt + j)) →
  wait_for_query athena id (n + remaining) attempt
  = ((wait_for_query athena id remaining (attempt + n)).1,
     polls_before id n
       ++ (wait_for_query athena id remaining (attempt + n)).2).
Proof.
  revert attempt. induction n as [|n IH]; intros attempt Hrun.
  - rewrite Nat.add_0_r. simpl.
    by destruct (wait_for_query athena id remaining attempt).
  - replace (S n + remaining) with (S (n + remaining)) by lia.
    rewrite wait_running_step.
    2:{ specialize (Hrun 0 ltac:(lia)). by rewrite Nat.add_0_r in Hrun. }
    rewrite IH.
    2:{ intros j Hj. specialize (Hrun (S j) ltac:(lia)).
        by replace (S attempt + j) with (attempt + S j) by lia. }
    replace (S attempt + n) with (attempt + S n) by lia. done.
Qed.


End Polling.

Lemma count_cons (p : call → bool) (c : call) (calls : list call) :
  count p (c :: calls) = (if p c then 1 else 0) + count p calls.
Proof. unfold count. simpl. by destruct (p c). Qed.

Section Execute.
Variable athena : AthenaClient.
Variable query : string.

Let submit : call :=
  StartQueryExecution query ATHENA_DATABASE ATHENA_OUTPUT_LOCATION.

Lemma execute_submit_failed (e : exception) :
  start_query_execution athena query ATHENA_DATABASE ATHENA_OUTPUT_LOCATION
  = inl e →
  execute_athena_query athena query
  = (Return (query_failure (str_exception e)), [submit]).
Proof.
  intros H. unfold execute_athena_query, mbind, M_bind, invoke.
  by rewrite H.
Qed.

Lemma execute_submitted (id : string) :
  start_query_execution athena query ATHENA_DATABASE ATHENA_OUTPUT_LOCATION
  = inr id →
  execute_athena_query athena query
  = (match (wait_for_query athena id max_attempts 0).1 with
     | Raise e => Return (query_failure (str_exception e))
     | other => other
     end,
     submit :: (wait_for_query athena id max_attempts 0).2).
Proof.
  intros H. unfold execute_athena_query, mbind, M_bind, invoke.
  rewrite H, bind_Return.
  destruct (wait_for_query athena id max_attempts 0) as [[v|e|] calls];
    simpl; [done| |done].
  by rewrite app_nil_r.
Qed.
End Execute.

Section Coordinator.
Variable athena : AthenaClient.

Lemma fetch_results_calls (id : string) :
  (fetch_results athena id).2 = [GetQueryResults id 100].
Proof.
  unfold fetch_results. by destruct (get_query_results athena id 100).
Qed.

Lemma fetch_results_outcome (id : string) (result : ResultSet) :
  get_query_results athena id 100 = inr result →
  (fetch_results athena id).1 = parse_results result.
Proof. unfold fetch_results. by intros ->. Qed.

(** The status of a poll is one of the three cases of the loop body. *)
Lemma status_cases (status : string) :
  status = "SUCCEEDED"
  ∨ (status = "FAILED" ∨ status = "CANCELLED")
  ∨ non_terminal status.
Proof.
  unfold non_terminal.
  destruct (decide (status = "SUCCEEDED")); [by left|].
  destruct (decide (status = "FAILED")); [by right; left; left|].
  destruct (decide (status = "CANCELLED")); [by right; left; right|].
  by right; right.
Qed.

(** Whatever the service answers, the loop never submits, fetches at most
    once and polls at most [remaining] times. *)
Lemma wait_counts (id : string) (remaining attempt : nat) :
  let calls := (wait_for_query athena id remaining attempt).2 in
  count is_start calls = 0
  ∧ count is_fetch calls ≤ 1
  ∧ count is_poll calls ≤ remaining
  ∧ ∀ id' n, GetQueryResults id' n ∈ calls → n = 100.
Proof.
  revert attempt. induction remaining as [|remaining IH]; intros attempt.
  { rewrite wait_zero. cbn. split_and!; try lia.
    intros ?? H. by apply elem_of_nil in H. }
  destruct (get_query_execution athena id attempt) as [e|st] eqn:Hpoll.
  { rewrite (wait_raise _ _ _ _ e) by done. cbn. split_and!; try lia.
    intros ?? H. by apply list_elem_of_singleton in H. }
  destruct (status_cases (State st)) as [Hs|[Hf|Hr]].
  - rewrite (wait_succeeded _ _ _ _ st) by done.
    rewrite fetch_results_calls. cbn. split_and!; try lia.
    intros ?? H. apply elem_of_cons in H as [?|H]; [done|].
    apply list_elem_of_singleton in H. by simplify_eq.
  - rewrite (wait_failed _ _ _ _ st) by done. cbn. split_and!; try lia.
    intros ?? H. by apply list_elem_of_singleton in H.
  - rewrite wait_running_step by (by exists st).
    destruct (IH (S attempt)) as (H1 & H2 & H3 & H4).
    cbn. unfold count in *. cbn in *. split_and!; try lia.
    intros ?? H. apply elem_of_cons in H as [?|H]; [done|].
    apply elem_of_cons in H as [?|H]; [done|]. by eapply H4.
Qed.

(** A run of the loop that ends in a success dictionary has fetched and
    parsed the results after some number of polls. *)
Lemma wait_success_inv (id : string) (remaining attempt : nat)
    (columns : list string) (rows : list pyval) :
  (wait_for_query athena id remaining attempt).1
  = Return (query_success columns rows) →
  ∃ n result,
    n < remaining
    ∧ get_query_results athena id 100 = inr result
    ∧ parse_results result = Return (query_success columns rows)
    ∧ (wait_for_query athena id remaining attempt).2
      = polls_before id n ++ [GetQueryExecution id; GetQueryResults id 100].
Proof.
  revert attempt. induction remaining as [|remaining IH]; intros attempt.
  { by rewrite wait_zero. }
  destruct (get_query_execution athena id attempt) as [e|st] eqn:Hpoll.
  { by rewrite (wait_raise _ _ _ _ e). }
  destruct (status_cases (State st)) as [Hs|[Hf|Hr]].
  - rewrite (wait_succeeded _ _ _ _ st) by done.
    rewrite fetch_results_calls. cbn [fst snd]. unfold fetch_results.
    destruct (get_query_results athena id 100) as [e|result]; [done|].
    cbn [fst]. intros Hp. exists 0, result. split_and!; [lia|done..].
  - by rewrite (wait_failed _ _ _ _ st).
  - rewrite wait_running_step by (by exists st). cbn [fst snd].
    intros (n & result & Hn & Hf & Hp & ->)%IH.
    exists (S n), result. split_and!; [lia|done..].
Qed.

(** The outcome of the loop is a success dictionary, a failure dictionary
    or an exception; it never leaves the model. *)
Lemma wait_outcome (id : string) (remaining attempt : nat) :
  (∃ result,
      (wait_for_query athena id remaining attempt).1 = parse_results result)
  ∨ (∃ msg, (wait_for_query athena id remaining attempt).1
            = Return (query_failure msg))
  ∨ (∃ e, (wait_for_query athena id remaining attempt).1 = Raise e).
Proof.
  revert attempt. induction remaining as [|remaining IH]; intros attempt.
  { rewrite wait_zero. right; left. by eexists. }
  destruct (get_query_execution athena id attempt) as [e|st] eqn:Hpoll.
  { rewrite (wait_raise _ _ _ _ e) by done. right; right. by eexists. }
  destruct (status_cases (State st)) as [Hs|[Hf|Hr]].
  - rewrite (wait_succeeded _ _ _ _ st) by done. cbn [fst].
    unfold fetch_results.
    destruct (get_query_results athena id 100) as [e|result]; cbn [fst].
    + right; right. by eexists.
    + left. by eexists.
  - rewrite (wait_failed _ _ _ _ st) by done. right; left. by eexists.
  - rewrite wait_running_step by (by exists st). cbn [fst]. apply IH.
Qed.
End Coordinator.

(** ** Insertion-ordered dictionaries *)

Section DictFacts.
Context {V : Type}.
Implicit Types (d : list (string * V)) (k : string) (v : V).

Lemma dict_get_set_eq k v d : dict_get k (dict_set k v d) = Some v.
Proof.
  induction d as [|[k' v'] d IH]; simpl.
  - by rewrite decide_True.
  - destruct (decide (k = k')); simpl.
    + by rewrite decide_True.
    + by rewrite decide_False.
Qed.

Lemma dict_get_set_ne k k' v d :
  k ≠ k' → dict_get k' (dict_set k v d) = dict_get k' d.
Proof.
  intros Hne. induction d as [|[k0 v0] d IH]; simpl.
  - by rewrite decide_False.
  - destruct (decide (k = k0)) as [->|]; simpl.
    + by rewrite !decide_False.
    + by rewrite IH.
Qed.

Lemma dict_keys_set_absent k v d :
  k ∉ dict_keys d → dict_keys (dict_set k v d) = dict_keys d ++ [k].
Proof.
  unfold dict_keys. induction d as [|[k' v'] d IH]; simpl; [done|].
  intros Hk. apply not_elem_of_cons in Hk as [Hne Hk].
  rewrite decide_False by done. simpl. f_equal. by apply IH.
Qed.

Lemma dict_keys_set_present k v d :
  k ∈ dict_keys d → dict_keys (dict_set k v d) = dict_keys d.
Proof.
  unfold dict_keys. induction d as [|[k' v'] d IH]; simpl.
  - intros H. by apply elem_of_nil in H.
  - intros Hk. destruct (decide (k = k')) as [->|Hne]; simpl; [done|].
    apply elem_of_cons in Hk as [?|Hk]; [done|]. f_equal. by apply IH.
Qed.

Lemma dict_keys_set_elem k v d c :
  c ∈ dict_keys (dict_set k v d) ↔ c = k ∨ c ∈ dict_keys d.
Proof.
  destruct (decide (k ∈ dict_keys d)) as [Hin|Hnot].
  - rewrite dict_keys_set_present by done.
    split; [by right|]. by intros [->|?].
  - rewrite dict_keys_set_absent by done.
    rewrite elem_of_app, list_elem_of_singleton.
    split; (intros [?|?]; [by right|by left]).
Qed.

Lemma dict_keys_set_NoDup k v d :
  NoDup (dict_keys d) → NoDup (dict_keys (dict_set k v d)).
Proof.
  intros Hd. destruct (decide (k ∈ dict_keys d)) as [Hin|Hnot].
  - by rewrite dict_keys_set_present.
  - rewrite dict_keys_set_absent by done.
    apply NoDup_app. split_and!; [done| |apply NoDup_singleton].
    intros c Hc ->%list_elem_of_singleton. done.
Qed.
End DictFacts.

(** ** Materializing the rows *)

Section Materialize.
Implicit Types (columns : list string) (data : list (option string)).
Implicit Types (row_data : list (string * pyval)).

Lemma fill_row_complete columns i data row_data :
  i + length columns ≤ length data →
  ∃ d, fill_row columns i data row_data = Return d.
Proof.
  revert i row_data.
  induction columns as [|col columns IH]; intros i row_data Hlen; simpl in *.
  - by eexists.
  - destruct (lookup_lt_is_Some_2 data i) as [cell ->]; [lia|].
    apply IH. lia.
Qed.

Lemma fill_row_short columns i data row_data :
  i ≤ length data →
  length data < i + length columns →
  fill_row columns i data row_data
  = Raise (IndexError "list index out of range").
Proof.
  revert i row_data.
  induction columns as [|col columns IH]; intros i row_data Hi Hlen;
    simpl in *.
  - lia.
  - destruct (data !! i) as [cell|] eqn:E; [|done].
    apply lookup_lt_Some in E. apply IH; lia.
Qed.

Lemma fill_row_keys columns i data row_data d :
  fill_row columns i data row_data = Return d →
  NoDup (dict_keys row_data) →
  NoDup (dict_keys d)
  ∧ ∀ c, c ∈ dict_keys d ↔ c ∈ dict_keys row_data ∨ c ∈ columns.
Proof.
  revert i row_data.
  induction columns as [|col columns IH]; intros i row_data Hfill Hnd;
    simpl in *.
  - simplify_eq. split; [done|]. intros c. rewrite elem_of_nil. tauto.
  - destruct (data !! i) as [cell|]; [|done].
    destruct (IH _ _ Hfill) as [Hnd' Hin]; [by apply dict_keys_set_NoDup|].
    split; [done|]. intros c. rewrite Hin, dict_keys_set_elem, elem_of_cons.
    tauto.
Qed.

Lemma fill_row_keys_in_order columns i data row_data d :
  fill_row columns i data row_data = Return d →
  NoDup (dict_keys row_data ++ columns) →
  dict_keys d = dict_keys row_data ++ columns.
Proof.
  revert i row_data.
  induction columns as [|col columns IH]; intros i row_data Hfill Hnd;
    simpl in *.
  - simplify_eq. by rewrite app_nil_r.
  - destruct (data !! i) as [cell|]; [|done].
    assert (col ∉ dict_keys row_data) as Hfresh.
    { apply NoDup_app in Hnd as (_ & Hdisj & _).
      intros Hc. apply (Hdisj col Hc). left. }
    rewrite (IH _ _ Hfill).
    + rewrite dict_keys_set_absent by done. by rewrite <-app_assoc.
    + rewrite dict_keys_set_absent by done. by rewrite <-app_assoc.
Qed.

Lemma fill_row_get_other columns i data row_data d k :
  fill_row columns i data row_data = Return d →
  k ∉ columns →
  dict_get k d = dict_get k row_data.
Proof.
  revert i row_data.
  induction columns as [|col columns IH]; intros i row_data Hfill Hk;
    simpl in *.
  - by simplify_eq.
  - destruct (data !! i) as [cell|]; [|done].
    apply not_elem_of_cons in Hk as [Hne Hk].
    rewrite (IH _ _ Hfill Hk). by apply dict_get_set_ne.
Qed.

Lemma fill_row_values columns i data row_data d :
  fill_row columns i data row_data = Return d →
  NoDup columns →
  ∀ j col, columns !! j = Some col →
    ∃ cell, data !! (i + j) = Some cell
            ∧ dict_get col d = Some (PStr (default EmptyString cell)).
Proof.
  revert i row_data.
  induction columns as [|c columns IH]; intros i row_data Hfill Hnd j col Hj;
    simpl in *; [done|].
  destruct (data !! i) as [cell|] eqn:Hcell; [|done].
  apply NoDup_cons in Hnd as [Hc Hnd].
  destruct j as [|j]; simpl in *.
  - simplify_eq. exists cell. rewrite Nat.add_0_r. split; [done|].
    rewrite (fill_row_get_other _ _ _ _ _ col Hfill Hc).
    apply dict_get_set_eq.
  - destruct (IH _ _ Hfill Hnd j col Hj) as (cell' & Hd & Hg).
    exists cell'. split; [|done].
    by replace (i + S j) with (S i + j) by lia.
Qed.

Lemma fill_row_strs columns i data row_data d :
  fill_row columns i data row_data = Return d →
  is_row (PDict row_data) = true → is_row (PDict d) = true.
Proof.
  revert i row_data.
  induction columns as [|c columns IH]; intros i row_data Hfill Hrow;
    simpl in *; [by simplify_eq|].
  destruct (data !! i) as [cell|]; [|done].
  apply (IH _ _ Hfill). clear -Hrow.
  induction row_data as [|[k v] row_data IH]; simpl in *; [done|].
  apply andb_true_iff in Hrow as [Hv Hrow].
  destruct (decide (c = k)); simpl; [done|]. by rewrite Hv, IH.
Qed.

Lemma fill_row_modelled columns i data row_data :
  fill_row columns i data row_data ≠ Unmodelled.
Proof.
  revert i row_data.
  induction columns as [|c columns IH]; intros i row_data; simpl; [done|].
  destruct (data !! i); [apply IH|done].
Qed.

Lemma parse_rows_complete columns (data_rows : list (list (option string)))
    (rows : list pyval) :
  (∀ row, row ∈ data_rows → length columns ≤ length row) →
  ∃ out,
    parse_rows columns data_rows rows = Return (rows ++ out)
    ∧ Forall2 (λ row o, ∃ d, o = PDict d
                           ∧ fill_row columns 0 row [] = Return d)
        data_rows out.
Proof.
  revert rows.
  induction data_rows as [|row data_rows IH]; intros rows Hlen; simpl.
  - exists []. by rewrite app_nil_r.
  - destruct (fill_row_complete columns 0 row []) as [d Hd].
    { simpl. apply Hlen. left. }
    rewrite Hd.
    destruct (IH (rows ++ [PDict d])) as (out & -> & Hall).
    { intros r Hr. apply Hlen. by right. }
    exists (PDict d :: out). rewrite <-app_assoc. split; [done|].
    constructor; [by exists d|done].
Qed.

Lemma parse_rows_length columns (data_rows : list (list (option string)))
    (rows out : list pyval) :
  parse_rows columns data_rows rows = Return out →
  length out = length rows + length data_rows.
Proof.
  revert rows.
  induction data_rows as [|row data_rows IH]; intros rows H; simpl in *.
  - simplify_eq. lia.
  - destruct (fill_row columns 0 row []) as [d| |]; [|done..].
    apply IH in H. rewrite length_app in H. simpl in H. lia.
Qed.

Lemma parse_rows_rows columns (data_rows : list (list (option string)))
    (rows out : list pyval) :
  parse_rows columns data_rows rows = Return out →
  forallb is_row rows = true → forallb is_row out = true.
Proof.
  revert rows.
  induction data_rows as [|row data_rows IH]; intros rows H Hrows;
    simpl in *; [by simplify_eq|].
  destruct (fill_row columns 0 row []) as [d| |] eqn:Hd; [|done..].
  apply (IH _ H). rewrite forallb_app, Hrows.
  change (forallb is_row [PDict d]) with (is_row (PDict d) && true).
  by rewrite (fill_row_strs _ _ _ _ _ Hd).
Qed.

Lemma parse_rows_modelled columns (data_rows : list (list (option string)))
    (rows : list pyval) :
  parse_rows columns data_rows rows ≠ Unmodelled.
Proof.
  revert rows. induction data_rows as [|row data_rows IH]; intros rows;
    simpl; [done|].
  destruct (fill_row columns 0 row []) as [d| |] eqn:Hd; [apply IH|done|].
  by apply fill_row_modelled in Hd.
Qed.

(** What [parse_results] returns, when it returns. *)
Lemma parse_results_Return (result : ResultSet) (v : pyval) :
  parse_results result = Return v →
  ∃ rows, v = query_success (ColumnInfo result) rows
          ∧ length rows = length (Rows result) - 1
          ∧ forallb is_row rows = true.
Proof.
  unfold parse_results.
  destruct (parse_rows _ _ _) as [rows| |] eqn:Hrows; [|done..].
  intros [= <-]. exists rows. split; [done|].
  split; [|by apply (parse_rows_rows _ _ _ _ Hrows)].
  apply parse_rows_length in Hrows. rewrite length_drop in Hrows.
  simpl in Hrows. lia.
Qed.

(** With a cell for every label in every data row, parsing succeeds. *)
Lemma parse_results_complete (result : ResultSet) :
  (∀ row, row ∈ drop 1 (Rows result) →
          length (ColumnInfo result) ≤ length row) →
  ∃ rows,
    parse_results result = Return (query_success (ColumnInfo result) rows)
    ∧ length rows = length (Rows result) - 1.
Proof.
  intros Hcomplete. unfold parse_results.
  destruct (parse_rows_complete (ColumnInfo result) (drop 1 (Rows result)) []
              Hcomplete) as (rows & Hparse & _).
  rewrite Hparse. exists rows. split; [reflexivity|].
  apply parse_rows_length in Hparse. rewrite length_drop in Hparse.
  cbn [app length] in Hparse. lia.
Qed.

Lemma parse_results_modelled (result : ResultSet) :
  parse_results result ≠ Unmodelled.
Proof.
  unfold parse_results.
  destruct (parse_rows _ _ _) eqn:H; [done..|].
  by apply parse_rows_modelled in H.
Qed.
End Materialize.

(** ** The dispatcher *)

Section Dispatcher.
Variable athena : AthenaClient.
Variable event : gmap string string.

Lemma lambda_handler_tool (context : LambdaContext) (name : string)
    (i : nat) :
  original_tool_name context = Return name →
  str_find delimiter name = Some i →
  lambda_handler athena event context
  = try_except (handle_tool athena event (str_from (i + 3) name))
      handler_of_last_resort.
Proof.
  intros Hname Hfind. unfold lambda_handler, mbind, M_bind.
  rewrite Hname, bind_lift_Return. unfold str_index.
  by rewrite Hfind, bind_lift_Return.
Qed.

Lemma lambda_handler_no_delimiter (context : LambdaContext) (name : string) :
  original_tool_name context = Return name →
  str_find delimiter name = None →
  lambda_handler athena event context
  = (Return (error_envelope (PStr "substring not found")), []).
Proof.
  intros Hname Hfind. unfold lambda_handler, mbind, M_bind.
  rewrite Hname, bind_lift_Return. unfold str_index.
  by rewrite Hfind.
Qed.

Lemma lambda_handler_no_name (context : LambdaContext) (e : exception) :
  original_tool_name context = Raise e →
  lambda_handler athena event context
  = (Return (error_envelope (PStr (str_exception e))), []).
Proof.
  intros Hname. unfold lambda_handler, mbind, M_bind. by rewrite Hname.
Qed.

Lemma handle_tool_unknown (tool_name : string) :
  dict_get tool_name PREDEFINED_QUERIES = None →
  handle_tool athena event tool_name = (Return (unknown_tool tool_name), []).
Proof. intros H. unfold handle_tool. by rewrite H. Qed.

Lemma handle_tool_missing (tool_name query_template key : string) :
  dict_get tool_name PREDEFINED_QUERIES = Some query_template →
  str_format query_template event = Raise (KeyError key) →
  handle_tool athena event tool_name
  = (Return (missing_parameter (KeyError key)), []).
Proof. intros H Hf. unfold handle_tool. by rewrite H, Hf. Qed.

Lemma handle_tool_success (tool_name query_template query : string)
    (columns : list string) (rows : list pyval) (calls : list call) :
  dict_get tool_name PREDEFINED_QUERIES = Some query_template →
  str_format query_template event = Return query →
  execute_athena_query athena query
  = (Return (query_success columns rows), calls) →
  handle_tool athena event tool_name
  = (Return (success_envelope (PList rows) (PList (PStr <$> columns))
               (PInt (length rows))), calls).
Proof.
  intros H Hf Hrun. unfold handle_tool, mbind, M_bind.
  rewrite H, Hf, Hrun, bind_Return. cbn. by rewrite app_nil_r.
Qed.

Lemma handle_tool_failure (tool_name query_template query msg : string)
    (calls : list call) :
  dict_get tool_name PREDEFINED_QUERIES = Some query_template →
  str_format query_template event = Return query →
  execute_athena_query athena query = (Return (query_failure msg), calls) →
  handle_tool athena event tool_name
  = (Return (error_envelope (PStr msg)), calls).
Proof.
  intros H Hf Hrun. unfold handle_tool, mbind, M_bind.
  rewrite H, Hf, Hrun, bind_Return. cbn. by rewrite app_nil_r.
Qed.

(** [execute_athena_query] always returns one of its two dictionaries. *)
Lemma execute_outcome (query : string) :
  ∃ calls,
    (∃ columns rows,
        forallb is_row rows = true
        ∧ execute_athena_query athena query
          = (Return (query_success columns rows), calls))
    ∨ (∃ msg, execute_athena_query athena query
              = (Return (query_failure msg), calls)).
Proof.
  destruct (start_query_execution athena query ATHENA_DATABASE
              ATHENA_OUTPUT_LOCATION) as [e|id] eqn:Hstart.
  { eexists. right. eexists. by apply execute_submit_failed. }
  rewrite (execute_submitted _ _ id Hstart). eexists.
  destruct (wait_outcome athena id max_attempts 0)
    as [[result Hw]|[[msg Hw]|[e Hw]]]; rewrite Hw.
  - destruct (parse_results result) as [v|e|] eqn:Hp.
    + apply parse_results_Return in Hp as (rows & -> & _ & Hrows).
      left. by exists (ColumnInfo result), rows.
    + right. by eexists.
    + by apply parse_results_modelled in Hp.
  - right. by eexists.
  - right. by eexists.
Qed.
End Dispatcher.

(** ** The coordinator: polls, failures, the single fetch *)

Lemma count_fetch_polls_before (id : string) (n : nat) (calls : list call) :
  count is_fetch (polls_before id n ++ calls) = count is_fetch calls.
Proof.
  induction n as [|n IH]; [done|].
  cbn [polls_before app]. by rewrite !count_cons, IH.
Qed.

Lemma query_success_inj (columns columns' : list string)
    (rows rows' : list pyval) :
  query_success columns rows = query_success columns' rows' → rows = rows'.
Proof. unfold query_success. by intros [= _ ->]. Qed.

Lemma query_success_columns_inj (columns columns' : list string)
    (rows rows' : list pyval) :
  query_success columns rows = query_success columns' rows' →
  columns = columns'.
Proof.
  unfold query_success. intros [= Hcolumns _].
  revert columns' Hcolumns.
  induction columns as [|c columns IH]; intros [|c' columns'] H;
    simplify_eq/=; [done|]. f_equal. by apply IH.
Qed.

(** A successful execution has submitted, polled, fetched and parsed. *)
Lemma execute_success_inv (athena : AthenaClient) (query : string)
    (columns : list string) (rows : list pyval) :
  (execute_athena_query athena query).1 = Return (query_success columns rows) →
  ∃ id n result,
    n < max_attempts
    ∧ get_query_results athena id 100 = inr result
    ∧ parse_results result = Return (query_success columns rows)
    ∧ (execute_athena_query athena query).2
      = StartQueryExecution query ATHENA_DATABASE ATHENA_OUTPUT_LOCATION
          :: polls_before id n
          ++ [GetQueryExecution id; GetQueryResults id 100].
Proof.
  destruct (start_query_execution athena query ATHENA_DATABASE
              ATHENA_OUTPUT_LOCATION) as [e|id] eqn:Hstart.
  { by rewrite (execute_submit_failed _ _ e). }
  rewrite (execute_submitted _ _ id Hstart). cbn [fst snd]. intros Hrun.
  destruct (wait_for_query athena id max_attempts 0).1 as [v|e|] eqn:Hw;
    [|done..].
  injection Hrun as ->.
  apply wait_success_inv in Hw as (n & result & Hn & Hf & Hp & ->).
  by exists id, n, result.
Qed.

(** C9: a successful execution performs exactly one fetch, asking for at
    most 100 rows; the fetch is the last call, so no further page is
    requested; with a service that honours the page size, at most 99 data
    rows are materialized. *)
Theorem execute_fetches_one_page (athena : AthenaClient) (query : string)
    (columns : list string) (rows : list pyval) :
  (execute_athena_query athena query).1 = Return (query_success columns rows) →
  let calls := (execute_athena_query athena query).2 in
  count is_fetch calls = 1
  ∧ (∃ id before,
        calls = before ++ [GetQueryResults id 100]
        ∧ count is_fetch before = 0)
  ∧ ((∀ id n result,
         get_query_results athena id n = inr result →
         length (Rows result) ≤ n) →
     length rows ≤ 99).
Proof.
  intros Hrun calls. subst calls.
  destruct (execute_success_inv _ _ _ _ Hrun)
    as (id & n & result & Hn & Hfetch & Hparse & ->).
  split_and!.
  - rewrite count_cons, count_fetch_polls_before, !count_cons. reflexivity.
  - exists id,
      (StartQueryExecution query ATHENA_DATABASE ATHENA_OUTPUT_LOCATION
         :: polls_before id n ++ [GetQueryExecution id]).
    split.
    + cbn [app]. rewrite <-app_assoc. reflexivity.
    + rewrite count_cons, count_fetch_polls_before, !count_cons. reflexivity.
  - intros Hpage. specialize (Hpage id 100 result Hfetch).
    apply parse_results_Return in Hparse as (rows' & Heq & Hlen & _).
    apply query_success_inj in Heq as <-. lia.
Qed.

Lemma execute_fetches_one_page_witness :
  let athena := scripted_service (settles_at 1 (status "SUCCEEDED")) table_ab in
  let rows := [ PDict [("a", PStr "1"); ("b", PStr "2")];
                PDict [("a", PStr "3"); ("b", PStr "4")] ] in
  (execute_athena_query athena "SELECT 1").1
  = Return (query_success ["a"; "b"] rows)
  ∧ count is_fetch (execute_athena_query athena "SELECT 1").2 = 1.
Proof.
  intros athena rows.
  assert ((execute_athena_query athena "SELECT 1").1
          = Return (query_success ["a"; "b"] rows)) as Hrun
    by (vm_compute; reflexivity).
  split; [exact Hrun|].
  exact (proj1 (execute_fetches_one_page athena "SELECT 1" ["a"; "b"] rows
                  Hrun)).
Defined.

(** ** Materialization of the result set *)

(** C2, as amended: when every row after the header has a cell for every
    column label, parsing drops the header and yields one dictionary per
    remaining row, in order; the keys of each dictionary are exactly the
    column labels, none omitted; when the labels are pairwise distinct the
    keys come in the order of the labels and the value under the i-th label
    is the i-th cell, or the empty string when the cell has no value. *)
Theorem parse_results_materializes (result : ResultSet) :
  (∀ row, row ∈ drop 1 (Rows result) →
          length (ColumnInfo result) ≤ length row) →
  ∃ rows,
    parse_results result = Return (query_success (ColumnInfo result) rows)
    ∧ length rows = length (Rows result) - 1
    ∧ Forall2
        (λ row out, ∃ row_data,
            out = PDict row_data
            ∧ NoDup (dict_keys row_data)
            ∧ (∀ col, col ∈ dict_keys row_data ↔ col ∈ ColumnInfo result)
            ∧ (NoDup (ColumnInfo result) →
               dict_keys row_data = ColumnInfo result
               ∧ ∀ i col, ColumnInfo result !! i = Some col →
                   ∃ cell, row !! i = Some cell
                           ∧ dict_get col row_data
                             = Some (PStr (default EmptyString cell))))
        (drop 1 (Rows result)) rows.
Proof.
  intros Hcomplete. unfold parse_results.
  destruct (parse_rows_complete (ColumnInfo result) (drop 1 (Rows result)) []
              Hcomplete) as (rows & Hparse & Hall).
  rewrite Hparse. cbn [app]. exists rows. split_and!.
  - reflexivity.
  - apply parse_rows_length in Hparse. rewrite length_drop in Hparse.
    cbn [app length] in Hparse. lia.
  - eapply Forall2_impl; [exact Hall|].
    intros row out (d & -> & Hfill). exists d. split; [done|].
    destruct (fill_row_keys _ _ _ _ _ Hfill) as [Hnd Hin]; [constructor|].
    split_and!.
    + done.
    + intros col. rewrite Hin. unfold dict_keys. cbn. rewrite elem_of_nil.
      tauto.
    + intros Hcols. split.
      * by rewrite (fill_row_keys_in_order _ _ _ _ _ Hfill).
      * intros i col Hi.
        by apply (fill_row_values _ _ _ _ _ Hfill Hcols i col Hi).
Qed.

Lemma parse_results_materializes_witness :
  (∀ row, row ∈ drop 1 (Rows table_ab) →
          length (ColumnInfo table_ab) ≤ length row)
  ∧ ∃ rows,
      parse_results table_ab = Return (query_success ["a"; "b"] rows)
      ∧ length rows = 2.
Proof.
  assert (∀ row, row ∈ drop 1 (Rows table_ab) →
                 length (ColumnInfo table_ab) ≤ length row) as Hcomplete.
  { intros row Hrow. cbn in Hrow.
    apply elem_of_cons in Hrow as [->|Hrow]; [cbn; lia|].
    apply list_elem_of_singleton in Hrow as ->. cbn. lia. }
  split; [exact Hcomplete|].
  destruct (parse_results_materializes table_ab Hcomplete)
    as (rows & Hparse & Hlen & _).
  exists rows. split; [exact Hparse|exact Hlen].
Defined.

(** The round trip of the specification. *)
Example parse_results_round_trip :
  parse_results table_ab
  = Return (query_success ["a"; "b"]
              [ PDict [("a", PStr "1"); ("b", PStr "2")];
                PDict [("a", PStr "3"); ("b", PStr "4")] ]).
Proof. reflexivity. Qed.

(** C2, as stated, fails: a data row with fewer cells than there are labels
    makes the whole materialization fail with "list index out of range", so
    no row is produced for it; and with a label that occurs twice the row
    has a single key for the two columns. *)
Lemma parse_results_not_every_result_set :
  parse_results table_short_row
  = Raise (IndexError "list index out of range")
  ∧ execute_athena_query
      (scripted_service (settles_at 1 (status "SUCCEEDED")) table_short_row)
      "SELECT 1"
    = (Return (query_failure "list index out of range"),
       [ StartQueryExecution "SELECT 1" ATHENA_DATABASE ATHENA_OUTPUT_LOCATION;
         GetQueryExecution "q-1"; GetQueryResults "q-1" 100 ])
  ∧ parse_results table_same_label
    = Return (query_success ["a"; "a"] [ PDict [("a", PStr "2")] ])
  ∧ dict_keys [("a", PStr "2")] ≠ ColumnInfo table_same_label.
Proof.
  split_and!; [reflexivity..|]. discriminate.
Qed.

(** ** Dispatch *)

Lemma lambda_handler_of_tool (athena : AthenaClient)
    (event : gmap string string) (context : LambdaContext) (name : string)
    (i : nat) (v : pyval) :
  original_tool_name context = Return name →
  str_find delimiter name = Some i →
  (handle_tool athena event (str_from (i + 3) name)).1 = Return v →
  lambda_handler athena event context
  = (Return v, (handle_tool athena event (str_from (i + 3) name)).2).
Proof.
  intros Hname Hfind Hv. rewrite (lambda_handler_tool _ _ _ name i) by done.
  destruct (handle_tool athena event (str_from (i + 3) name)) as [o calls].
  cbn [fst snd] in *. by subst o.
Qed.

Lemma handle_tool_success_outcome (athena : AthenaClient)
    (event : gmap string string) (tool_name query_template query : string)
    (columns : list string) (rows : list pyval) :
  dict_get tool_name PREDEFINED_QUERIES = Some query_template →
  str_format query_template event = Return query →
  (execute_athena_query athena query).1
  = Return (query_success columns rows) →
  (handle_tool athena event tool_name).1
  = Return (success_envelope (PList rows) (PList (PStr <$> columns))
              (PInt (length rows))).
Proof.
  intros Hget Hf Hrun.
  destruct (execute_athena_query athena query) as [o calls] eqn:E.
  cbn [fst] in Hrun. subst o.
  by rewrite (handle_tool_success _ _ _ _ _ _ _ _ Hget Hf E).
Qed.

(** ** Binding *)

Lemma str_format_first_missing (template : string)
    (kwargs : gmap string string) :
  (∃ p, p ∈ placeholders template ∧ kwargs !! p = None) →
  ∃ before missing after,
    placeholders template = before ++ missing :: after
    ∧ (∀ m, m ∈ before → is_Some (kwargs !! m))
    ∧ kwargs !! missing = None
    ∧ str_format template kwargs = Raise (KeyError missing).
Proof.
  intros (before & missing & after & Hsplit & Hbefore & Hmissing)
    %first_missing_exists.
  exists before, missing, after. split_and!; [done..|].
  unfold str_format. by eapply render_first_missing.
Qed.

(** C4: for a template of the table and parameters that cover its
    placeholders, binding succeeds; the query is the template with every
    placeholder replaced by its value, and the literal text of the template
    contributes no brace, so that a brace in the query can only come from a
    supplied value; parameters the template does not mention do not change
    the query. *)
Theorem bind_complete_parameters (tool template : string)
    (kwargs : gmap string string) :
  dict_get tool PREDEFINED_QUERIES = Some template →
  (∀ name, name ∈ placeholders template → is_Some (kwargs !! name)) →
  let pieces := (markup InText template).1 in
  unparse pieces = template
  ∧ str_format template kwargs = Return (substitute pieces kwargs)
  ∧ (∀ p, p ∈ pieces → literal_brace p = false)
  ∧ ((∀ name v, name ∈ placeholders template → kwargs !! name = Some v →
                has_brace v = false) →
     has_brace (substitute pieces kwargs) = false)
  ∧ (∀ kwargs' : gmap string string,
        (∀ name, name ∈ placeholders template →
                 kwargs' !! name = kwargs !! name) →
        str_format template kwargs' = str_format template kwargs).
Proof.
  intros Hget Hcover pieces. subst pieces.
  destruct (template_ok_inv template (PREDEFINED_QUERIES_ok _ _ Hget))
    as (Hdone & Hunparse & Hliteral).
  split_and!.
  - exact Hunparse.
  - unfold str_format. rewrite Hdone. by apply render_all_present.
  - exact Hliteral.
  - intros Hvalues. by apply substitute_brace_free.
  - intros kwargs' Hagree. unfold str_format. by apply render_agree.
Qed.

Lemma bind_complete_parameters_witness :
  dict_get "get_inventory_status" PREDEFINED_QUERIES
  = Some get_inventory_status_template
  ∧ str_format get_inventory_status_template
      {[ "warehouse_id" := "WH001"; "limit" := "5" ]}
    = str_format get_inventory_status_template {[ "warehouse_id" := "WH001" ]}.
Proof.
  split; [reflexivity|].
  refine (proj2 (proj2 (proj2 (proj2
    (bind_complete_parameters "get_inventory_status"
       get_inventory_status_template {[ "warehouse_id" := "WH001" ]}
       eq_refl _)))) {[ "warehouse_id" := "WH001"; "limit" := "5" ]} _).
  - intros name Hname. vm_compute in Hname.
    apply list_elem_of_singleton in Hname as ->. vm_compute. eauto.
  - intros name Hname. vm_compute in Hname.
    apply list_elem_of_singleton in Hname as ->. vm_compute. reflexivity.
Defined.

(** ** The tool name *)

(** C10: the tool identifier handed to the lookup is what follows the first
    occurrence of "___" in the name supplied by the context; when the name
    has no "___", the handler returns the error envelope made from the
    "substring not found" fault, which is not the unknown-tool answer, and
    calls nothing. *)
Theorem tool_name_after_first_delimiter (athena : AthenaClient)
    (event : gmap string string) (context : LambdaContext) (name : string) :
  original_tool_name context = Return name →
  (∀ i, str_find delimiter name = Some i →
        let tool_name := str_from (i + 3) name in
        name = str_upto i name +:+ delimiter +:+ tool_name
        ∧ (∀ j, j < i → starts_with delimiter (str_from j name) = false)
        ∧ lambda_handler athena event context
          = try_except (handle_tool athena event tool_name)
              handler_of_last_resort)
  ∧ (str_find delimiter name = None →
     (∀ j, starts_with delimiter (str_from j name) = false)
     ∧ lambda_handler athena event context
       = (Return (PDict [ ("status", PStr "error");
                          ("error", PStr "substring not found") ]), [])
     ∧ ∀ tool_name,
         (lambda_handler athena event context).1
         ≠ Return (unknown_tool tool_name)).
Proof.
  intros Hname. split.
  - intros i Hfind tool_name. subst tool_name.
    destruct (str_find_Some _ _ _ Hfind) as [Hat Hbefore].
    split_and!.
    + rewrite (str_upto_from i name) at 1. f_equal.
      rewrite str_from_add. by apply starts_with_split in Hat.
    + exact Hbefore.
    + by apply lambda_handler_tool.
  - intros Hfind. split_and!.
    + by apply str_find_None.
    + by apply (lambda_handler_no_delimiter _ _ _ name).
    + intros tool_name.
      by rewrite (lambda_handler_no_delimiter _ _ _ name).
Qed.

Lemma tool_name_after_first_delimiter_witness :
  let athena := scripted_service (settles_at 1 (status "SUCCEEDED")) table_ab in
  original_tool_name (invocation "a____b") = Return "a____b"
  ∧ str_find delimiter "a____b" = Some 1
  ∧ lambda_handler athena ∅ (invocation "a____b")
    = try_except (handle_tool athena ∅ "_b") handler_of_last_resort.
Proof.
  intros athena. split_and!; [reflexivity..|].
  destruct (tool_name_after_first_delimiter athena ∅ (invocation "a____b")
              "a____b" eq_refl) as [Hfound _].
  destruct (Hfound 1 eq_refl) as (_ & _ & Hhandler). exact Hhandler.
Defined.

Lemma envelope_conforms (data columns : pyval) (n : nat) :
  is_data data = true →
  is_str_list columns = true →
  conforms_envelope (success_envelope data columns (PInt n)) = true.
Proof.
  intros Hdata Hcolumns. lazy -[is_data is_str_list].
  by rewrite Hdata, Hcolumns.
Qed.

Lemma success_envelope_conforms (columns : list string) (rows : list pyval) :
  forallb is_row rows = true →
  conforms_envelope
    (success_envelope (PList rows) (PList (PStr <$> columns))
       (PInt (length rows))) = true.
Proof.
  intros Hrows. apply envelope_conforms; [done|].
  by induction columns.
Qed.

Lemma error_envelope_conforms (msg : string) :
  conforms_envelope (error_envelope (PStr msg)) = true.
Proof. reflexivity. Qed.

Lemma render_Done_outcome (ps : list piece) (kwargs : gmap string string) :
  (∃ s, render ps Done kwargs = Return s)
  ∨ (∃ key, render ps Done kwargs = Raise (KeyError key)).
Proof.
  induction ps as [|[c|f] ps IH]; simpl.
  - left. by eexists.
  - destruct IH as [[s ->]|[key ->]]; [left|right]; by eexists.
  - destruct (kwargs !! f) as [v|]; [|right; by eexists].
    destruct IH as [[s ->]|[key ->]]; [left|right]; by eexists.
Qed.

Lemma original_tool_name_modelled (context : LambdaContext) :
  original_tool_name context ≠ Unmodelled.
Proof. unfold original_tool_name. by repeat case_match. Qed.

(** The handler always answers: with an envelope of the external shape, or
    with one of the two dictionaries of its early returns. *)
Lemma lambda_handler_answers (athena : AthenaClient)
    (event : gmap string string) (context : LambdaContext) :
  ∃ v calls,
    lambda_handler athena event context = (Return v, calls)
    ∧ (conforms_envelope v = true
       ∨ (∃ tool_name, v = unknown_tool tool_name)
       ∨ (∃ key, v = missing_parameter (KeyError key))).
Proof.
  destruct (original_tool_name context) as [name|e|] eqn:Hname.
  2:{ eexists _, _. split; [by apply lambda_handler_no_name|]. by left. }
  2:{ by apply original_tool_name_modelled in Hname. }
  destruct (str_find delimiter name) as [i|] eqn:Hfind.
  2:{ eexists _, _.
      split; [by apply (lambda_handler_no_delimiter _ _ _ name)|]. by left. }
  assert (∀ v, (handle_tool athena event (str_from (i + 3) name)).1 = Return v →
            ∃ calls, lambda_handler athena event context = (Return v, calls))
    as Hvia.
  { intros v Hv. eexists. by apply (lambda_handler_of_tool _ _ _ name i). }
  destruct (dict_get (str_from (i + 3) name) PREDEFINED_QUERIES)
    as [query_template|] eqn:Hget.
  2:{ destruct (Hvia (unknown_tool (str_from (i + 3) name))) as [calls ->].
      { by rewrite handle_tool_unknown. }
      eexists _, _. split; [done|]. right; left. by eexists. }
  destruct (template_ok_inv _ (PREDEFINED_QUERIES_ok _ _ Hget)) as (Hdone & _).
  destruct (render_Done_outcome (markup InText query_template).1 event)
    as [[query Hformat]|[key Hformat]].
  - assert (str_format query_template event = Return query) as Hq
      by (unfold str_format; by rewrite Hdone).
    destruct (execute_outcome athena query)
      as [calls [(columns & rows & Hrows & Hrun)|[msg Hrun]]].
    + destruct (Hvia (success_envelope (PList rows) (PList (PStr <$> columns))
                        (PInt (length rows)))) as [calls' ->].
      { by rewrite (handle_tool_success _ _ _ _ _ _ _ _ Hget Hq Hrun). }
      eexists _, _. split; [done|]. left.
      by apply success_envelope_conforms.
    + destruct (Hvia (error_envelope (PStr msg))) as [calls' ->].
      { by rewrite (handle_tool_failure _ _ _ _ _ _ _ Hget Hq Hrun). }
      eexists _, _. split; [done|]. by left.
  - assert (str_format query_template event = Raise (KeyError key)) as Hq
      by (unfold str_format; by rewrite Hdone).
    destruct (Hvia (missing_parameter (KeyError key))) as [calls ->].
    { by rewrite (handle_tool_missing _ _ _ query_template key). }
    eexists _, _. split; [done|]. right; right. by eexists.
Qed.

(** C6: the handler always returns a value, but its two early returns do not
    have the external shape: for a tool that is not in the table, and for a
    missing parameter, the dictionary carries the key "success" and no
    "status". *)
Theorem dispatch_early_returns_lack_status (athena : AthenaClient) :
  lambda_handler athena ∅ (invocation "gateway___drop_tables")
  = (Return (PDict [ ("success", PBool false);
                     ("error", PStr "Unknown tool: drop_tables") ]), [])
  ∧ conforms_envelope
      (PDict [ ("success", PBool false);
               ("error", PStr "Unknown tool: drop_tables") ]) = false
  ∧ lambda_handler athena ∅ (invocation "gateway___get_product_performance")
    = (Return (PDict [ ("success", PBool false);
                       ("error",
                        PStr "Missing required parameter: 'months'") ]), [])
  ∧ conforms_envelope
      (PDict [ ("success", PBool false);
               ("error", PStr "Missing required parameter: 'months'") ])
    = false.
Proof.
  split_and!.
  - rewrite (lambda_handler_of_tool _ _ _ "gateway___drop_tables" 7
               (unknown_tool "drop_tables")); [reflexivity..|].
    by rewrite handle_tool_unknown.
  - reflexivity.
  - rewrite (lambda_handler_of_tool _ _ _ "gateway___get_product_performance"
               7 (missing_parameter (KeyError "months")));
      [reflexivity..|].
    rewrite (handle_tool_missing _ _ _ get_product_performance_template
               "months"); [reflexivity..|].
    vm_compute. reflexivity.
  - reflexivity.
Qed.

(** * Further properties of the coordinator *)

Lemma wait_sleep_bound (athena : AthenaClient) (id : string)
    (remaining attempt : nat) :
  let calls := (wait_for_query athena id remaining attempt).2 in
  total_sleep calls ≤ remaining
  ∧ total_sleep calls ≤ count is_poll calls.
Proof.
  revert attempt. induction remaining as [|remaining IH]; intros attempt.
  { rewrite wait_zero. cbn. lia. }
  destruct (get_query_execution athena id attempt) as [e|st] eqn:Hpoll.
  { rewrite (wait_raise _ _ _ _ e) by done. cbn. lia. }
  destruct (status_cases (State st)) as [Hs|[Hf|Hr]].
  - rewrite (wait_succeeded _ _ _ _ st) by done.
    rewrite fetch_results_calls. cbn. lia.
  - rewrite (wait_failed _ _ _ _ st) by done. cbn. lia.
  - rewrite wait_running_step by (by exists st).
    destruct (IH (S attempt)) as [H1 H2].
    cbn [snd total_sleep]. rewrite !count_cons. cbn [is_poll]. lia.
Qed.

Lemma wait_calls (athena : AthenaClient) (id : string)
    (remaining attempt : nat) (c : call) :
  c ∈ (wait_for_query athena id remaining attempt).2 →
  c = GetQueryExecution id ∨ c = GetQueryResults id 100 ∨ c = Sleep 1.
Proof.
  revert attempt. induction remaining as [|remaining IH]; intros attempt.
  { rewrite wait_zero. intros H. by apply elem_of_nil in H. }
  destruct (get_query_execution athena id attempt) as [e|st] eqn:Hpoll.
  { rewrite (wait_raise _ _ _ _ e) by done. intros H.
    apply list_elem_of_singleton in H. by left. }
  destruct (status_cases (State st)) as [Hs|[Hf|Hr]].
  - rewrite (wait_succeeded _ _ _ _ st) by done.
    rewrite fetch_results_calls. cbn [snd]. intros H.
    apply elem_of_cons in H as [H|H]; [by left|].
    apply list_elem_of_singleton in H. right. by left.
  - rewrite (wait_failed _ _ _ _ st) by done. intros H.
    apply list_elem_of_singleton in H. by left.
  - rewrite wait_running_step by (by exists st). cbn [snd]. intros H.
    apply elem_of_cons in H as [H|H]; [by left|].
    apply elem_of_cons in H as [H|H]; [right; by right|].
    by apply (IH (S attempt)).
Qed.

Lemma fill_row_outcome (columns : list string) (i : nat)
    (data : list (option string)) (row_data : list (string * pyval)) :
  (∃ d, fill_row columns i data row_data = Return d)
  ∨ fill_row columns i data row_data
    = Raise (IndexError "list index out of range").
Proof.
  revert i row_data. induction columns as [|col columns IH];
    intros i row_data; simpl.
  - left. by eexists.
  - destruct (data !! i); [apply IH|by right].
Qed.

Lemma parse_rows_short (columns : list string)
    (data_rows : list (list (option string))) (rows : list pyval) :
  (∃ row, row ∈ data_rows ∧ length row < length columns) →
  parse_rows columns data_rows rows
  = Raise (IndexError "list index out of range").
Proof.
  revert rows. induction data_rows as [|row data_rows IH];
    intros rows (short & Hin & Hshort); simpl.
  - by apply elem_of_nil in Hin.
  - destruct (fill_row_outcome columns 0 row []) as [[d Hd]|Hraise];
      rewrite ?Hraise; [|done].
    rewrite Hd. apply IH. exists short. split; [|done].
    apply elem_of_cons in Hin as [->|Hin]; [|done].
    rewrite fill_row_short in Hd; [done|lia|simpl; lia].
Qed.

(** X4: whatever the service does, also when it raises at any call,
    [execute_athena_query] returns and never raises; its result is either
    the success dictionary, with a row count equal to the number of rows
    and rows that map labels to strings, or a failure dictionary with an
    error text. *)
Theorem execute_never_raises (athena : AthenaClient) (query : string) :
  ∃ v calls,
    execute_athena_query athena query = (Return v, calls)
    ∧ ((∃ columns rows,
           v = PDict [ ("success", PBool true);
                       ("columns", PList (PStr <$> columns));
                       ("rows", PList rows);
                       ("row_count", PInt (length rows)) ]
           ∧ forallb is_row rows = true)
       ∨ (∃ error,
             v = PDict [ ("success", PBool false); ("error", PStr error) ])).
Proof.
  destruct (execute_outcome athena query)
    as [calls [(columns & rows & Hrows & Hrun)|[msg Hrun]]].
  - eexists _, calls. split; [exact Hrun|]. left. by exists columns, rows.
  - eexists _, calls. split; [exact Hrun|]. right. by exists msg.
Qed.

(** X5: whatever the service answers, one execution polls at most 60 times
    and sleeps at most 60 seconds in all, never longer than one second per
    poll made. *)
Theorem execute_bounded_wait (athena : AthenaClient) (query : string) :
  let calls := (execute_athena_query athena query).2 in
  count is_poll calls ≤ 60
  ∧ total_sleep calls ≤ 60
  ∧ total_sleep calls ≤ count is_poll calls.
Proof.
  intros calls. subst calls.
  destruct (start_query_execution athena query ATHENA_DATABASE
              ATHENA_OUTPUT_LOCATION) as [e|id] eqn:Hstart.
  - rewrite (execute_submit_failed _ _ e) by done. cbn. lia.
  - rewrite (execute_submitted _ _ id Hstart). cbn [snd total_sleep].
    rewrite count_cons. cbn [is_poll].
    destruct (wait_counts athena id max_attempts 0) as (_ & _ & Hpolls & _).
    destruct (wait_sleep_bound athena id max_attempts 0) as [Hsleep Hle].
    unfold max_attempts in *. cbn zeta in *. lia.
Qed.

(** X6: every execution begins with one submission that carries the query
    text unchanged together with the configured database and output
    location; when the submission returns a handle, every later call is a
    status poll for that handle, the fetch of at most 100 results for that
    handle, or a sleep of one second; when the submission fails, nothing
    else is called. *)
Theorem execute_calls_use_handle (athena : AthenaClient) (query : string) :
  ∃ rest,
    (execute_athena_query athena query).2
    = StartQueryExecution query ATHENA_DATABASE ATHENA_OUTPUT_LOCATION :: rest
    ∧ (∀ id,
          start_query_execution athena query ATHENA_DATABASE
            ATHENA_OUTPUT_LOCATION = inr id →
          ∀ c, c ∈ rest →
               c = GetQueryExecution id ∨ c = GetQueryResults id 100
               ∨ c = Sleep 1)
    ∧ (∀ e,
          start_query_execution athena query ATHENA_DATABASE
            ATHENA_OUTPUT_LOCATION = inl e →
          rest = []).
Proof.
  destruct (start_query_execution athena query ATHENA_DATABASE
              ATHENA_OUTPUT_LOCATION) as [e|id] eqn:Hstart.
  - rewrite (execute_submit_failed _ _ e) by done. exists [].
    split_and!; [done| |done]. intros id' [=].
  - rewrite (execute_submitted _ _ id Hstart).
    exists (wait_for_query athena id max_attempts 0).2.
    split_and!; [done| |intros e' [=]].
    intros id' [= <-] c Hc. by apply wait_calls in Hc.
Qed.

(** * Further properties of the dispatcher *)

Lemma starts_with_cons (a b : ascii) (p s : string) :
  starts_with (String a p) (String b s) = Ascii.eqb a b && starts_with p s.
Proof. reflexivity. Qed.

Lemma str_mem_cons (c c' : ascii) (s : string) :
  str_mem c (String c' s) = Ascii.eqb c c' || str_mem c s.
Proof. reflexivity. Qed.

Lemma str_find_after_prefix (prefix rest : string) :
  str_mem "_"%char prefix = false →
  str_find delimiter (prefix +:+ delimiter +:+ rest)
  = Some (String.length prefix).
Proof.
  induction prefix as [|c prefix IH]; intros Hmem.
  - reflexivity.
  - rewrite str_mem_cons in Hmem. apply orb_false_iff in Hmem as [Hc Hmem].
    rewrite app_String. cbn [str_find String.length].
    unfold delimiter at 1. rewrite starts_with_cons, Hc. cbn [andb].
    by rewrite IH.
Qed.

Lemma str_from_after_prefix (prefix rest : string) :
  str_from (String.length prefix) (prefix +:+ rest) = rest.
Proof.
  induction prefix as [|c prefix IH]; [by destruct rest|].
  rewrite app_String. simpl. exact IH.
Qed.

Lemma tool_after_prefix (prefix tool : string) :
  str_from (String.length prefix + 3) (prefix +:+ delimiter +:+ tool) = tool.
Proof. by rewrite str_from_add, str_from_after_prefix. Qed.

(** X12: when the name supplied by the context is a prefix without
    underscore, the delimiter and a tool name, the handler looks up exactly
    that tool name, also when the tool name itself contains the
    delimiter. *)
Theorem handler_gateway_name_round_trip (athena : AthenaClient)
    (event : gmap string string) (context : LambdaContext)
    (prefix tool : string) :
  original_tool_name context = Return (prefix +:+ delimiter +:+ tool) →
  str_mem "_"%char prefix = false →
  lambda_handler athena event context
  = try_except (handle_tool athena event tool) handler_of_last_resort.
Proof.
  intros Hname Hprefix.
  rewrite (lambda_handler_tool _ _ _ _ (String.length prefix) Hname)
    by (by apply str_find_after_prefix).
  by rewrite tool_after_prefix.
Qed.

Lemma handler_gateway_name_witness :
  let athena := scripted_service (settles_at 1 (status "SUCCEEDED")) table_ab in
  let context := invocation "athena-queries___get___x" in
  original_tool_name context
  = Return ("athena-queries" +:+ delimiter +:+ "get___x")
  ∧ str_mem "_"%char "athena-queries" = false
  ∧ lambda_handler athena ∅ context
    = (Return (unknown_tool "get___x"), []).
Proof.
  intros athena context. split_and!; [reflexivity..|].
  rewrite (handler_gateway_name_round_trip athena ∅ context
             "athena-queries" "get___x" eq_refl eq_refl).
  reflexivity.
Defined.

(** X9: when the context carries no tool name, because it has no client
    context, no custom dictionary or no "bedrockAgentCoreToolName" entry,
    the handler returns the error envelope made from the exception (for the
    missing entry the text is the quoted key) and calls nothing. *)
Theorem handler_context_without_tool_name (athena : AthenaClient)
    (event : gmap string string) (context : LambdaContext) :
  (client_context context = None →
   lambda_handler athena event context
   = (Return (PDict [ ("status", PStr "error");
                      ("error",
                       PStr "'NoneType' object has no attribute 'custom'") ]),
      []))
  ∧ (∀ cc, client_context context = Some cc → custom cc = None →
       lambda_handler athena event context
       = (Return (PDict [ ("status", PStr "error");
                          ("error",
                           PStr "'NoneType' object is not subscriptable") ]),
          []))
  ∧ (∀ cc (m : gmap string string),
       client_context context = Some cc → custom cc = Some m →
       m !! "bedrockAgentCoreToolName" = None →
       lambda_handler athena event context
       = (Return (PDict [ ("status", PStr "error");
                          ("error", PStr "'bedrockAgentCoreToolName'") ]),
          [])).
Proof.
  split_and!.
  - intros Hcc.
    rewrite (lambda_handler_no_name _ _ _
               (AttributeError "'NoneType' object has no attribute 'custom'"));
      [done|]. unfold original_tool_name. by rewrite Hcc.
  - intros cc Hcc Hcustom.
    rewrite (lambda_handler_no_name _ _ _
               (TypeError "'NoneType' object is not subscriptable"));
      [done|]. unfold original_tool_name. by rewrite Hcc, Hcustom.
  - intros cc m Hcc Hcustom Hkey.
    rewrite (lambda_handler_no_name _ _ _
               (KeyError "bedrockAgentCoreToolName")); [done|].
    unfold original_tool_name. by rewrite Hcc, Hcustom, Hkey.
Qed.

Lemma handler_context_without_tool_name_witness :
  let athena := scripted_service (settles_at 1 (status "SUCCEEDED")) table_ab in
  let context :=
    {| client_context :=
         Some {| custom := Some {[ "other" := "athena___get_sales_summary" ]}
              |} |} in
  lambda_handler athena ∅ context
  = (Return (PDict [ ("status", PStr "error");
                     ("error", PStr "'bedrockAgentCoreToolName'") ]), []).
Proof.
  intros athena context.
  destruct (handler_context_without_tool_name athena ∅ context)
    as (_ & _ & Hkey).
  apply (Hkey {| custom := Some {[ "other" := "athena___get_sales_summary" ]} |}
           {[ "other" := "athena___get_sales_summary" ]});
    reflexivity.
Defined.

(** X10: when the coordinator returns a failure, the handler returns the
    error envelope with the same text and has made exactly the calls of the
    coordinator; in particular, when the service keeps answering with a
    non-terminal status, the handler answers with the timeout text after 60
    polls. *)
Theorem handler_mirrors_coordinator_failure (athena : AthenaClient)
    (event : gmap string string) (context : LambdaContext) (name : string)
    (i : nat) (query_template query : string) :
  original_tool_name context = Return name →
  str_find delimiter name = Some i →
  dict_get (str_from (i + 3) name) PREDEFINED_QUERIES = Some query_template →
  str_format query_template event = Return query →
  (∀ error,
      (execute_athena_query athena query).1 = Return (query_failure error) →
      lambda_handler athena event context
      = (Return (PDict [ ("status", PStr "error"); ("error", PStr error) ]),
         (execute_athena_query athena query).2))
  ∧ (∀ id,
        start_query_execution athena query ATHENA_DATABASE
          ATHENA_OUTPUT_LOCATION = inr id →
        (∀ j, j < 60 → running athena id j) →
        lambda_handler athena event context
        = (Return (PDict [ ("status", PStr "error");
                           ("error",
                            PStr "Query timeout - exceeded maximum wait time")
                         ]),
           StartQueryExecution query ATHENA_DATABASE ATHENA_OUTPUT_LOCATION
             :: polls_before id 60)).
Proof.
  intros Hname Hfind Hget Hformat.
  assert (∀ error calls,
      execute_athena_query athena query = (Return (query_failure error), calls) →
      lambda_handler athena event context
      = (Return (error_envelope (PStr error)), calls)) as Hmirror.
  { intros error calls Hrun.
    rewrite (lambda_handler_of_tool _ _ _ name i
               (error_envelope (PStr error)) Hname Hfind);
      by rewrite (handle_tool_failure _ _ _ _ _ _ _ Hget Hformat Hrun). }
  split.
  - intros error Hrun.
    destruct (execute_athena_query athena query) as [o calls] eqn:E.
    cbn [fst snd] in *. subst o. by apply Hmirror.
  - intros id Hstart Hrun. apply Hmirror.
    rewrite (execute_submitted _ _ id Hstart).
    replace max_attempts with (60 + 0) by done.
    rewrite wait_running by (intros j Hj; by apply Hrun).
    rewrite wait_zero. cbn [fst snd]. by rewrite app_nil_r.
Qed.

Lemma handler_mirrors_failure_witness :
  let athena :=
    {| start_query_execution := λ _ _ _, inl (ClientError "AccessDenied");
       get_query_execution := λ _ _, inr (status "RUNNING");
       get_query_results := λ _ _, inr table_ab |} in
  lambda_handler athena {[ "warehouse_id" := "WH001" ]}
    (invocation "gateway___get_inventory_status")
  = (Return (PDict [ ("status", PStr "error");
                     ("error", PStr "AccessDenied") ]),
     [ StartQueryExecution inventory_query_WH001 ATHENA_DATABASE
         ATHENA_OUTPUT_LOCATION ]).
Proof.
  intros athena.
  destruct (handler_mirrors_coordinator_failure athena
              {[ "warehouse_id" := "WH001" ]}
              (invocation "gateway___get_inventory_status")
              "gateway___get_inventory_status" 7
              get_inventory_status_template inventory_query_WH001)
    as [Hmirror _].
  - reflexivity.
  - reflexivity.
  - reflexivity.
  - vm_compute. reflexivity.
  - apply (Hmirror "AccessDenied"). reflexivity.
Defined.

(** X11: the answer and the calls of the handler depend on the event only
    through the values of the placeholders of the tool's template: entries
    the template does not mention change nothing, and for a tool that is
    not in the table the event is not looked at. *)
Theorem handler_ignores_extra_parameters (athena : AthenaClient)
    (event event' : gmap string string) (context : LambdaContext)
    (name : string) (i : nat) :
  original_tool_name context = Return name →
  str_find delimiter name = Some i →
  (∀ query_template,
      dict_get (str_from (i + 3) name) PREDEFINED_QUERIES
      = Some query_template →
      ∀ p, p ∈ placeholders query_template → event' !! p = event !! p) →
  lambda_handler athena event' context = lambda_handler athena event context.
Proof.
  intros Hname Hfind Hagree.
  rewrite !(lambda_handler_tool _ _ _ name i Hname Hfind). f_equal.
  unfold handle_tool.
  destruct (dict_get (str_from (i + 3) name) PREDEFINED_QUERIES)
    as [query_template|]; [|done].
  assert (str_format query_template event' = str_format query_template event)
    as ->; [|done].
  unfold str_format. apply render_agree. by apply Hagree.
Qed.

Lemma handler_ignores_extra_parameters_witness :
  let athena := scripted_service (settles_at 1 (status "SUCCEEDED")) table_ab in
  let context := invocation "gateway___get_inventory_status" in
  lambda_handler athena {[ "warehouse_id" := "WH001"; "limit" := "5" ]} context
  = lambda_handler athena {[ "warehouse_id" := "WH001" ]} context.
Proof.
  intros athena context.
  apply (handler_ignores_extra_parameters athena _ _ context
           "gateway___get_inventory_status" 7); [reflexivity..|].
  intros query_template Hget p Hp. vm_compute in Hget.
  injection Hget as <-. vm_compute in Hp.
  apply list_elem_of_singleton in Hp as ->. vm_compute. reflexivity.
Defined.

(** What the handler calls: nothing, or what the coordinator calls for the
    query bound from a template of the table. *)
Lemma lambda_handler_calls (athena : AthenaClient)
    (event : gmap string string) (context : LambdaContext) :
  (lambda_handler athena event context).2 = []
  ∨ ∃ tool query_template query,
      dict_get tool PREDEFINED_QUERIES = Some query_template
      ∧ str_format query_template event = Return query
      ∧ (lambda_handler athena event context).2
        = (execute_athena_query athena query).2.
Proof.
  destruct (original_tool_name context) as [name|e|] eqn:Hname.
  2:{ left. by rewrite (lambda_handler_no_name _ _ _ e). }
  2:{ by apply original_tool_name_modelled in Hname. }
  destruct (str_find delimiter name) as [i|] eqn:Hfind.
  2:{ left. by rewrite (lambda_handler_no_delimiter _ _ _ name). }
  destruct (dict_get (str_from (i + 3) name) PREDEFINED_QUERIES)
    as [query_template|] eqn:Hget.
  2:{ left.
      rewrite (lambda_handler_of_tool _ _ _ name i
                 (unknown_tool (str_from (i + 3) name)) Hname Hfind);
        by rewrite handle_tool_unknown. }
  destruct (template_ok_inv _ (PREDEFINED_QUERIES_ok _ _ Hget)) as (Hdone & _).
  destruct (render_Done_outcome (markup InText query_template).1 event)
    as [[query Hformat]|[key Hformat]].
  - assert (str_format query_template event = Return query) as Hq
      by (unfold str_format; by rewrite Hdone).
    right. exists (str_from (i + 3) name), query_template, query.
    split_and!; [done..|].
    destruct (execute_outcome athena query)
      as [calls [(columns & rows & Hrows & Hrun)|[msg Hrun]]].
    + rewrite (lambda_handler_of_tool _ _ _ name i
                 (success_envelope (PList rows) (PList (PStr <$> columns))
                    (PInt (length rows))) Hname Hfind);
        by rewrite (handle_tool_success _ _ _ _ _ _ _ _ Hget Hq Hrun), ?Hrun.
    + rewrite (lambda_handler_of_tool _ _ _ name i
                 (error_envelope (PStr msg)) Hname Hfind);
        by rewrite (handle_tool_failure _ _ _ _ _ _ _ Hget Hq Hrun), ?Hrun.
  - assert (str_format query_template event = Raise (KeyError key)) as Hq
      by (unfold str_format; by rewrite Hdone).
    left.
    rewrite (lambda_handler_of_tool _ _ _ name i
               (missing_parameter (KeyError key)) Hname Hfind);
      by rewrite (handle_tool_missing _ _ _ query_template key).
Qed.

(** X7: whatever the event, the context and the service, one invocation
    submits at most one query, and a query it submits is the text bound
    from a template of the table with the parameters of the event, sent to
    the configured database and output location: no other text reaches
    the service. *)
Theorem handler_submits_only_templates (athena : AthenaClient)
    (event : gmap string string) (context : LambdaContext) :
  let calls := (lambda_handler athena event context).2 in
  count is_start calls ≤ 1
  ∧ ∀ text database location,
      StartQueryExecution text database location ∈ calls →
      database = ATHENA_DATABASE
      ∧ location = ATHENA_OUTPUT_LOCATION
      ∧ ∃ tool query_template,
          dict_get tool PREDEFINED_QUERIES = Some query_template
          ∧ str_format query_template event = Return text.
Proof.
  intros calls. subst calls.
  destruct (lambda_handler_calls athena event context)
    as [->|(tool & query_template & query & Hget & Hformat & ->)].
  { split; [cbn; lia|]. intros ??? H. by apply elem_of_nil in H. }
  assert (∃ rest,
      (execute_athena_query athena query).2
      = StartQueryExecution query ATHENA_DATABASE ATHENA_OUTPUT_LOCATION :: rest
      ∧ count is_start rest = 0
      ∧ ∀ c, c ∈ rest → is_start c = false) as (rest & -> & Hcount & Hrest).
  { destruct (start_query_execution athena query ATHENA_DATABASE
                ATHENA_OUTPUT_LOCATION) as [e|id] eqn:Hstart.
    - rewrite (execute_submit_failed _ _ e) by done. exists [].
      split_and!; [done..|]. intros c H. by apply elem_of_nil in H.
    - rewrite (execute_submitted _ _ id Hstart). eexists.
      split_and!; [done| |].
      + by destruct (wait_counts athena id max_attempts 0) as (H0 & _).
      + intros c Hc. by apply wait_calls in Hc as [->|[->| ->]]. }
  split.
  - rewrite count_cons, Hcount. cbn. lia.
  - intros text database location Hin.
    apply elem_of_cons in Hin as [Heq|Hin].
    + injection Heq as -> -> ->. split_and!; [done..|].
      by exists tool, query_template.
    + by apply Hrest in Hin.
Qed.

(** * Further properties of binding and materialization *)

Lemma str_app_assoc (s t u : string) : (s +:+ t) +:+ u = s +:+ t +:+ u.
Proof.
  induction s as [|c s IH]; [done|]. rewrite !app_String. by rewrite IH.
Qed.

Lemma substitute_app (ps qs : list piece) (kwargs : gmap string string) :
  substitute (ps ++ qs) kwargs = substitute ps kwargs +:+ substitute qs kwargs.
Proof.
  induction ps as [|[c|f] ps IH]; simpl; [done|..].
  - by rewrite IH, app_String.
  - by rewrite IH, str_app_assoc.
Qed.

Lemma unparse_app (ps qs : list piece) :
  unparse (ps ++ qs) = unparse ps +:+ unparse qs.
Proof.
  induction ps as [|[c|f] ps IH]; simpl; [done|..].
  - by rewrite IH, app_String.
  - rewrite IH, app_String. f_equal. by rewrite str_app_assoc, app_String.
Qed.

(** X8: binding puts a value into the query character for character: at
    each occurrence of a placeholder, the text before it is the binding of
    the template text before the placeholder, then comes the value as
    supplied, with no quoting or escaping, then the binding of the rest. *)
Theorem bind_inserts_values_verbatim (tool template : string)
    (kwargs : gmap string string) (before after : list piece)
    (name v : string) :
  dict_get tool PREDEFINED_QUERIES = Some template →
  (markup InText template).1 = before ++ Field name :: after →
  (∀ p, p ∈ placeholders template → is_Some (kwargs !! p)) →
  kwargs !! name = Some v →
  template
  = unparse before +:+ String lbrace (name +:+ String rbrace (unparse after))
  ∧ str_format template kwargs
    = Return (substitute before kwargs +:+ v +:+ substitute after kwargs).
Proof.
  intros Hget Hpieces Hcover Hname.
  destruct (template_ok_inv template (PREDEFINED_QUERIES_ok _ _ Hget))
    as (Hdone & Hunparse & _).
  split.
  - rewrite <-Hunparse at 1. by rewrite Hpieces, unparse_app.
  - unfold str_format. rewrite Hdone, render_all_present by done.
    rewrite Hpieces, substitute_app. simpl. by rewrite Hname.
Qed.

Lemma bind_inserts_values_verbatim_witness :
  ∃ before after,
    (markup InText get_order_details_template).1
    = before ++ Field "order_id" :: after
    ∧ str_format get_order_details_template
        {[ "order_id" := "x' OR '1'='1" ]}
      = Return (substitute before ∅ +:+ "x' OR '1'='1" +:+ "'
    ").
Proof.
  pose (pieces := (markup InText get_order_details_template).1).
  exists (take 344 pieces), (drop 345 pieces).
  assert (pieces = take 344 pieces ++ Field "order_id" :: drop 345 pieces)
    as Hpieces by (vm_compute; reflexivity).
  split; [exact Hpieces|].
  destruct (bind_inserts_values_verbatim "get_order_details"
              get_order_details_template {[ "order_id" := "x' OR '1'='1" ]}
              (take 344 pieces) (drop 345 pieces) "order_id" "x' OR '1'='1"
              eq_refl Hpieces) as [_ Hformat].
  - intros p Hp. vm_compute in Hp.
    apply list_elem_of_singleton in Hp as ->. vm_compute. eauto.
  - vm_compute. reflexivity.
  - rewrite Hformat. vm_compute. reflexivity.
Defined.

Lemma fill_row_last_wins (columns : list string) (i : nat)
    (data : list (option string)) (row_data d : list (string * pyval)) :
  fill_row columns i data row_data = Return d →
  ∀ j col,
    columns !! j = Some col →
    (∀ j', j < j' → columns !! j' ≠ Some col) →
    ∃ cell, data !! (i + j) = Some cell
            ∧ dict_get col d = Some (PStr (default EmptyString cell)).
Proof.
  revert i row_data.
  induction columns as [|c columns IH]; intros i row_data Hfill j col Hj Hlast;
    simpl in *; [done|].
  destruct (data !! i) as [cell|] eqn:Hcell; [|done].
  destruct j as [|j]; simpl in *.
  - simplify_eq. exists cell. rewrite Nat.add_0_r. split; [done|].
    rewrite (fill_row_get_other _ _ _ _ _ col Hfill).
    + apply dict_get_set_eq.
    + intros [j' Hj']%list_elem_of_lookup.
      apply (Hlast (S j')); [lia|done].
  - destruct (IH _ _ Hfill j col Hj) as (cell' & Hd & Hg).
    { intros j' Hlt. apply (Hlast (S j')). lia. }
    exists cell'. split; [|done].
    by replace (i + S j) with (S i + j) by lia.
Qed.

(** X13: when two or more columns carry the same label, the row keeps one
    entry for the label and its value is the cell of the last such column:
    in every output row, the value under a label is the cell at the last
    position where the label occurs (the empty string when that cell has no
    value). *)
Theorem parse_results_last_label_wins (result : ResultSet) :
  (∀ row, row ∈ drop 1 (Rows result) →
          length (ColumnInfo result) ≤ length row) →
  ∃ rows,
    parse_results result = Return (query_success (ColumnInfo result) rows)
    ∧ Forall2
        (λ row out, ∃ row_data,
            out = PDict row_data
            ∧ ∀ j col,
                ColumnInfo result !! j = Some col →
                (∀ j', j < j' → ColumnInfo result !! j' ≠ Some col) →
                ∃ cell, row !! j = Some cell
                        ∧ dict_get col row_data
                          = Some (PStr (default EmptyString cell)))
        (drop 1 (Rows result)) rows.
Proof.
  intros Hcomplete. unfold parse_results.
  destruct (parse_rows_complete (ColumnInfo result) (drop 1 (Rows result)) []
              Hcomplete) as (rows & Hparse & Hall).
  rewrite Hparse. cbn [app]. exists rows. split; [reflexivity|].
  eapply Forall2_impl; [exact Hall|].
  intros row out (d & -> & Hfill). exists d. split; [done|].
  intros j col Hj Hlast.
  by apply (fill_row_last_wins _ _ _ _ _ Hfill j col Hj Hlast).
Qed.

Lemma parse_results_last_label_wins_witness :
  (∀ row, row ∈ drop 1 (Rows table_same_label) →
          length (ColumnInfo table_same_label) ≤ length row)
  ∧ parse_results table_same_label
    = Return (query_success ["a"; "a"] [ PDict [("a", PStr "2")] ]).
Proof.
  assert (∀ row, row ∈ drop 1 (Rows table_same_label) →
                 length (ColumnInfo table_same_label) ≤ length row)
    as Hcomplete.
  { intros row Hrow. cbn in Hrow.
    apply list_elem_of_singleton in Hrow as ->. cbn. lia. }
  split; [exact Hcomplete|].
  destruct (parse_results_last_label_wins table_same_label Hcomplete)
    as (rows & Hparse & _).
  reflexivity.
Defined.

(** * The tool schemas and the templates *)

Lemma get_tool_schemas_match (schema : pyval) :
  schema ∈ get_tool_schemas → schema_matches schema = true.
Proof.
  assert (forallb schema_matches get_tool_schemas = true) as Hall
    by (vm_compute; reflexivity).
  intros Hin. rewrite forallb_forall in Hall.
  by apply Hall, list_elem_of_In.
Qed.

Lemma schema_matches_inv (schema : pyval) (tool : string) :
  schema_matches schema = true →
  schema_name schema = Some tool →
  ∃ template,
    dict_get tool PREDEFINED_QUERIES = Some template
    ∧ ∀ p, p ∈ placeholders template ↔ p ∈ schema_properties schema.
Proof.
  unfold schema_matches. intros Hmatch Hname. rewrite Hname in Hmatch.
  destruct (dict_get tool PREDEFINED_QUERIES) as [template|]; [|done].
  exists template. split; [done|].
  apply andb_true_iff in Hmatch as [Hsub Hsup].
  rewrite forallb_forall in Hsub, Hsup.
  intros p. split; intros Hp.
  - by apply list_elem_of_In, Hsub, bool_decide_eq_true in Hp.
  - by apply list_elem_of_In, Hsup, bool_decide_eq_true in Hp.
Qed.

Lemma lambda_handler_of_named_tool (athena : AthenaClient)
    (event : gmap string string) (context : LambdaContext)
    (prefix tool : string) (v : pyval) :
  original_tool_name context = Return (prefix +:+ delimiter +:+ tool) →
  str_mem "_"%char prefix = false →
  (handle_tool athena event tool).1 = Return v →
  lambda_handler athena event context
  = (Return v, (handle_tool athena event tool).2).
Proof.
  intros Hname Hprefix Hv.
  pose proof (str_find_after_prefix prefix tool Hprefix) as Hfind.
  rewrite (lambda_handler_of_tool _ _ _ _ _ v Hname Hfind);
    by rewrite tool_after_prefix.
Qed.

(** X14: every tool declared to the gateway has a template, and the
    parameters its schema declares are exactly the placeholders of that
    template; so an invocation of a declared tool that supplies every
    declared parameter is bound and submitted, and the answer has the
    external shape: it is never the unknown-tool or the missing-parameter
    dictionary. *)
Theorem declared_tools_are_served (athena : AthenaClient)
    (event : gmap string string) (context : LambdaContext)
    (prefix tool : string) (schema : pyval) :
  schema ∈ get_tool_schemas →
  schema_name schema = Some tool →
  original_tool_name context = Return (prefix +:+ delimiter +:+ tool) →
  str_mem "_"%char prefix = false →
  (∀ p, p ∈ schema_properties schema → is_Some (event !! p)) →
  ∃ template query v,
    dict_get tool PREDEFINED_QUERIES = Some template
    ∧ (∀ p, p ∈ placeholders template ↔ p ∈ schema_properties schema)
    ∧ str_format template event = Return query
    ∧ lambda_handler athena event context
      = (Return v, (execute_athena_query athena query).2)
    ∧ conforms_envelope v = true.
Proof.
  intros Hin Hschema Hname Hprefix Hsupplied.
  destruct (schema_matches_inv schema tool (get_tool_schemas_match _ Hin)
              Hschema) as (template & Hget & Hsame).
  destruct (template_ok_inv template (PREDEFINED_QUERIES_ok _ _ Hget))
    as (Hdone & _).
  assert (str_format template event
          = Return (substitute (markup InText template).1 event)) as Hformat.
  { unfold str_format. rewrite Hdone. apply render_all_present.
    intros p Hp. by apply Hsupplied, Hsame. }
  exists template, (substitute (markup InText template).1 event).
  destruct (execute_outcome athena
              (substitute (markup InText template).1 event))
    as [calls [(columns & rows & Hrows & Hrun)|[msg Hrun]]].
  - exists (success_envelope (PList rows) (PList (PStr <$> columns))
              (PInt (length rows))).
    split_and!; [done..| |by apply success_envelope_conforms].
    rewrite (lambda_handler_of_named_tool _ _ _ prefix tool
               (success_envelope (PList rows) (PList (PStr <$> columns))
                  (PInt (length rows))) Hname Hprefix);
      by rewrite (handle_tool_success _ _ _ _ _ _ _ _ Hget Hformat Hrun),
           ?Hrun.
  - exists (error_envelope (PStr msg)).
    split_and!; [done..| |done].
    rewrite (lambda_handler_of_named_tool _ _ _ prefix tool
               (error_envelope (PStr msg)) Hname Hprefix);
      by rewrite (handle_tool_failure _ _ _ _ _ _ _ Hget Hformat Hrun),
           ?Hrun.
Qed.

Lemma declared_tools_are_served_witness :
  let athena := scripted_service (settles_at 1 (status "SUCCEEDED")) table_ab in
  let context := invocation "athena-queries___get_regional_breakdown" in
  ∃ schema query v,
    schema ∈ get_tool_schemas
    ∧ schema_name schema = Some "get_regional_breakdown"
    ∧ lambda_handler athena {[ "months" := "3" ]} context
      = (Return v, (execute_athena_query athena query).2)
    ∧ conforms_envelope v = true.
Proof.
  intros athena context.
  pose (schema := default (PStr EmptyString) (get_tool_schemas !! 3)).
  assert (schema ∈ get_tool_schemas) as Hin.
  { apply list_elem_of_lookup. by exists 3. }
  destruct (declared_tools_are_served athena {[ "months" := "3" ]} context
              "athena-queries" "get_regional_breakdown" schema Hin eq_refl
              eq_refl eq_refl)
    as (template & query & v & _ & _ & _ & Hrun & Hshape).
  { intros p Hp. vm_compute in Hp.
    apply list_elem_of_singleton in Hp as ->. vm_compute. eauto. }
  exists schema, query, v. by split_and!.
Defined.

Lemma handler_missing (athena : AthenaClient) (event : gmap string string)
    (context : LambdaContext) (prefix tool template missing : string) :
  original_tool_name context = Return (prefix +:+ delimiter +:+ tool) →
  str_mem "_"%char prefix = false →
  dict_get tool PREDEFINED_QUERIES = Some template →
  str_format template event = Raise (KeyError missing) →
  lambda_handler athena event context
  = (Return (missing_parameter (KeyError missing)), []).
Proof.
  intros Hname Hprefix Hget Hformat.
  rewrite (lambda_handler_of_named_tool _ _ _ prefix tool
             (missing_parameter (KeyError missing)) Hname Hprefix);
    by rewrite (handle_tool_missing _ _ _ template missing).
Qed.

(** X15: a parameter that a schema declares without listing it as required
    is required all the same: an invocation of a declared tool that
    supplies every required parameter but not such an optional one is
    answered with "Missing required parameter" naming it, and no query is
    submitted (the defaults the descriptions mention are not applied). *)
Theorem optional_parameter_is_required (athena : AthenaClient)
    (event : gmap string string) (context : LambdaContext)
    (prefix tool : string) (schema : pyval) (p : string) :
  schema ∈ get_tool_schemas →
  schema_name schema = Some tool →
  original_tool_name context = Return (prefix +:+ delimiter +:+ tool) →
  str_mem "_"%char prefix = false →
  p ∈ schema_properties schema →
  p ∉ schema_required schema →
  (∀ r, r ∈ schema_required schema → is_Some (event !! r)) →
  event !! p = None →
  lambda_handler athena event context
  = (Return (PDict [ ("success", PBool false);
                     ("error",
                      PStr ("Missing required parameter: " +:+ py_repr p)) ]),
     []).
Proof.
  intros Hin Hschema Hname Hprefix Hp Hopt Hreq Hnone.
  unfold get_tool_schemas in Hin.
  repeat (apply elem_of_cons in Hin as [->|Hin]);
    [..|by apply elem_of_nil in Hin];
    vm_compute in Hschema; injection Hschema as <-;
    vm_compute in Hp; vm_compute in Hopt.
  - by apply elem_of_nil in Hp.
  - apply list_elem_of_singleton in Hp as ->.
    apply (handler_missing _ _ _ prefix "get_top_customers"
             get_top_customers_template "limit"); [done..|].
    unfold str_format.
    apply (render_first_missing _ _ _ [] "limit" []);
      [by vm_compute| |done].
    intros m Hm. by apply elem_of_nil in Hm.
  - apply elem_of_cons in Hp as [->|Hp].
    { exfalso. apply Hopt. left. }
    apply list_elem_of_singleton in Hp as ->.
    apply (handler_missing _ _ _ prefix "get_product_performance"
             get_product_performance_template "limit"); [done..|].
    unfold str_format.
    apply (render_first_missing _ _ _ ["months"] "limit" []);
      [by vm_compute| |done].
    intros m Hm. apply list_elem_of_singleton in Hm as ->.
    apply Hreq. vm_compute. left.
  - apply list_elem_of_singleton in Hp as ->. exfalso. apply Hopt. left.
  - apply list_elem_of_singleton in Hp as ->. exfalso. apply Hopt. left.
  - apply list_elem_of_singleton in Hp as ->. exfalso. apply Hopt. left.
Qed.

Lemma optional_parameter_is_required_witness :
  let athena := scripted_service (settles_at 1 (status "SUCCEEDED")) table_ab in
  let context := invocation "athena-queries___get_product_performance" in
  ∃ schema,
    schema ∈ get_tool_schemas
    ∧ schema_name schema = Some "get_product_performance"
    ∧ schema_required schema = ["months"]
    ∧ schema_properties schema = ["months"; "limit"]
    ∧ lambda_handler athena {[ "months" := "3" ]} context
      = (Return (PDict [ ("success", PBool false);
                         ("error",
                          PStr "Missing required parameter: 'limit'") ]),
         []).
Proof.
  intros athena context.
  pose (schema := default (PStr EmptyString) (get_tool_schemas !! 2)).
  assert (schema ∈ get_tool_schemas) as Hin.
  { apply list_elem_of_lookup. by exists 2. }
  exists schema. split_and!; [exact Hin|reflexivity..|].
  apply (optional_parameter_is_required athena {[ "months" := "3" ]} context
           "athena-queries" "get_product_performance" schema "limit" Hin).
  - reflexivity.
  - reflexivity.
  - reflexivity.
  - vm_compute. right. left.
  - vm_compute. intros H. apply list_elem_of_singleton in H. discriminate H.
  - intros r Hr. vm_compute in Hr.
    apply list_elem_of_singleton in Hr as ->. vm_compute. eauto.
  - vm_compute. reflexivity.
Defined.

(** * Further properties of templates without placeholders and of answers *)

Lemma markup_text (c : ascii) (rest : string) :
  is_brace c = false →
  markup InText (String c rest) = emit (Text c) (markup InText rest).
Proof.
  unfold is_brace. intros [Hl Hr]%orb_false_iff.
  cbn [markup]. by rewrite Hl, Hr.
Qed.

(** X16: a template without any brace is bound to itself whatever the
    parameters are: binding never fails on it and leaves every character in
    place. *)
Theorem str_format_brace_free (template : string)
    (kwargs : gmap string string) :
  has_brace template = false →
  placeholders template = []
  ∧ str_format template kwargs = Return template.
Proof.
  unfold placeholders, str_format.
  induction template as [|c rest IH]; intros Hfree; [done|].
  simpl in Hfree. apply orb_false_iff in Hfree as [Hc Hrest].
  destruct (IH Hrest) as [IHp IHf].
  rewrite (markup_text _ _ Hc). unfold emit. cbn [fst snd field_names render].
  split; [exact IHp|]. by rewrite IHf.
Qed.

Lemma str_format_brace_free_witness :
  has_brace get_sales_summary_template = false
  ∧ str_format get_sales_summary_template {[ "months" := "3" ]}
    = Return get_sales_summary_template.
Proof.
  assert (has_brace get_sales_summary_template = false) as Hfree
    by (vm_compute; reflexivity).
  split; [exact Hfree|].
  exact (proj2 (str_format_brace_free get_sales_summary_template
                  {[ "months" := "3" ]} Hfree)).
Defined.

(** X17: whatever the event, the context and the service, the handler
    returns and never raises; its answer is an envelope of the external
    shape, with status "success" or "error", except on its two early
    returns, where it is the unknown-tool or the missing-parameter
    dictionary. *)
Theorem handler_always_answers (athena : AthenaClient)
    (event : gmap string string) (context : LambdaContext) :
  ∃ v calls,
    lambda_handler athena event context = (Return v, calls)
    ∧ (conforms_envelope v = true
       ∨ (∃ tool_name,
             v = PDict [ ("success", PBool false);
                         ("error", PStr ("Unknown tool: " +:+ tool_name)) ])
       ∨ (∃ key,
             v = PDict [ ("success", PBool false);
                         ("error",
                          PStr ("Missing required parameter: "
                                +:+ py_repr key)) ])).
Proof.
  destruct (lambda_handler_answers athena event context)
    as (v & calls & Hrun & [Hshape|[[tool_name ->]|[key ->]]]).
  - exists v, calls. split; [exact Hrun|]. by left.
  - eexists _, calls. split; [exact Hrun|]. right; left. by exists tool_name.
  - eexists _, calls. split; [exact Hrun|]. right; right. by exists key.
Qed.

(** * The returned dictionaries, spelled out *)

Lemma repr_char_plain (c : ascii) :
  plain_char c = true → repr_char squote c = str1 c.
Proof.
  unfold plain_char, repr_char. cbv zeta. intros H.
  apply andb_true_iff in H as [H Hb]. apply andb_true_iff in H as [H Hq].
  apply andb_true_iff in H as [Hlo Hhi].
  apply negb_true_iff in Hb, Hq. apply Nat.leb_le in Hlo, Hhi.
  rewrite Hb, Hq.
  rewrite (proj2 (Nat.eqb_neq _ 10)) by lia.
  rewrite (proj2 (Nat.eqb_neq _ 13)) by lia.
  rewrite (proj2 (Nat.eqb_neq _ 9)) by lia.
  rewrite (proj2 (Nat.ltb_ge _ 32)) by lia.
  by rewrite (proj2 (Nat.eqb_neq _ 127)) by lia.
Qed.

Lemma plain_key_no_quote (key : string) :
  plain_key key = true → str_mem squote key = false.
Proof.
  induction key as [|c key IH]; [done|].
  cbn [plain_key str_mem]. intros [Hc Hkey]%andb_true_iff.
  rewrite (IH Hkey), orb_false_r.
  unfold plain_char in Hc. cbv zeta in Hc.
  apply andb_true_iff in Hc as [Hc _]. apply andb_true_iff in Hc as [_ Hq].
  apply negb_true_iff in Hq. by rewrite Ascii.eqb_sym.
Qed.

Lemma repr_body_plain (key : string) :
  plain_key key = true → repr_body squote key = key.
Proof.
  induction key as [|c key IH]; [done|].
  cbn [plain_key repr_body]. intros [Hc Hkey]%andb_true_iff.
  by rewrite (repr_char_plain _ Hc), (IH Hkey).
Qed.

Lemma py_repr_plain (key : string) :
  plain_key key = true → py_repr key = "'" +:+ key +:+ "'".
Proof.
  intros Hkey. unfold py_repr.
  rewrite (plain_key_no_quote _ Hkey). cbn [andb].
  by rewrite (repr_body_plain _ Hkey).
Qed.

Lemma str_exception_text (e : exception) (text : string) :
  exception_text e text → str_exception e = text.
Proof. intros [key Hkey| | | | |]; [by apply py_repr_plain|done..]. Qed.

(** The names of the placeholders of the table are plain. *)
Lemma PREDEFINED_QUERIES_plain (tool template p : string) :
  dict_get tool PREDEFINED_QUERIES = Some template →
  p ∈ placeholders template →
  plain_key p = true.
Proof.
  assert (forallb (λ kv, forallb plain_key (placeholders kv.2))
            PREDEFINED_QUERIES = true) as Hall by (vm_compute; reflexivity).
  intros Hget Hp. rewrite forallb_forall in Hall.
  assert (In (tool, template) PREDEFINED_QUERIES) as Hin.
  { clear -Hget. induction PREDEFINED_QUERIES as [|[k v] d IH];
      simpl in *; [done|].
    destruct (decide (tool = k)); simplify_eq; [by left|right; auto]. }
  apply Hall in Hin. rewrite forallb_forall in Hin.
  by apply Hin, list_elem_of_In.
Qed.

(** With a cell for every label in every data row, parsing returns the
    success dictionary made of the materialized rows. *)
Lemma parse_results_spec (result : ResultSet) :
  (∀ row, row ∈ drop 1 (Rows result) →
          length (ColumnInfo result) ≤ length row) →
  ∃ rows,
    parse_results result = Return (query_success (ColumnInfo result) rows)
    ∧ length rows = length (Rows result) - 1
    ∧ Forall2 (materialized_row (ColumnInfo result))
        (drop 1 (Rows result)) rows.
Proof.
  intros Hcomplete. unfold parse_results.
  destruct (parse_rows_complete (ColumnInfo result) (drop 1 (Rows result)) []
              Hcomplete) as (rows & Hparse & Hall).
  rewrite Hparse. cbn [app]. exists rows. split_and!.
  - reflexivity.
  - apply parse_rows_length in Hparse. rewrite length_drop in Hparse.
    cbn [app length] in Hparse. lia.
  - eapply Forall2_impl; [exact Hall|].
    intros row out (d & -> & Hfill). exists d. split; [done|].
    destruct (fill_row_keys _ _ _ _ _ Hfill) as [Hnd Hin]; [constructor|].
    split_and!.
    + done.
    + intros col. rewrite Hin. unfold dict_keys. cbn. rewrite elem_of_nil.
      tauto.
    + intros j col Hj Hlast.
      by apply (fill_row_last_wins _ _ _ _ _ Hfill j col Hj Hlast).
Qed.

(** The execution when the service reports SUCCEEDED on poll [k]. *)
Lemma execute_succeeded (athena : AthenaClient) (query id : string) (k : nat)
    (st : QueryStatus) :
  start_query_execution athena query ATHENA_DATABASE ATHENA_OUTPUT_LOCATION
  = inr id →
  1 ≤ k ≤ 60 →
  (∀ j, j < k - 1 → running athena id j) →
  get_query_execution athena id (k - 1) = inr st →
  State st = "SUCCEEDED" →
  execute_athena_query athena query
  = (match (fetch_results athena id).1 with
     | Raise e => Return (query_failure (str_exception e))
     | other => other
     end,
     StartQueryExecution query ATHENA_DATABASE ATHENA_OUTPUT_LOCATION
       :: polls_before id (k - 1)
       ++ [GetQueryExecution id; GetQueryResults id 100]).
Proof.
  intros Hstart Hk Hrun Hpoll Hs.
  rewrite (execute_submitted _ _ id Hstart).
  replace max_attempts with ((k - 1) + S (60 - k)) by (unfold max_attempts; lia).
  rewrite wait_running by (intros j Hj; by apply Hrun).
  rewrite (wait_succeeded _ _ _ _ st) by assumption.
  rewrite fetch_results_calls. reflexivity.
Qed.




(** C7: when the first terminal status seen within the 60 polls is FAILED
    or CANCELLED, the coordinator returns the failure dictionary whose error
    is the reason the service gave, or "Unknown error" when it gave none; a
    submission that fails is reported at once by the failure dictionary
    whose error is the text of the exception, after that single call; in
    every execution there is exactly one submission and at most one
    fetch. *)
Theorem execute_reports_service_failure
    (athena : AthenaClient) (query : string) :
  let run := execute_athena_query athena query in
  let submit :=
    StartQueryExecution query ATHENA_DATABASE ATHENA_OUTPUT_LOCATION in
  (∀ id k st,
      start_query_execution athena query ATHENA_DATABASE ATHENA_OUTPUT_LOCATION
      = inr id →
      1 ≤ k ≤ 60 →
      (∀ j, j < k - 1 → running athena id j) →
      get_query_execution athena id (k - 1) = inr st →
      State st = "FAILED" ∨ State st = "CANCELLED" →
      run.2 = submit :: polls_before id (k - 1) ++ [GetQueryExecution id]
      ∧ (∀ reason, StateChangeReason st = Some reason →
           run.1 = Return (PDict [ ("success", PBool false);
                                   ("error", PStr reason) ]))
      ∧ (StateChangeReason st = None →
           run.1 = Return (PDict [ ("success", PBool false);
                                   ("error", PStr "Unknown error") ])))
  ∧ (∀ e,
      start_query_execution athena query ATHENA_DATABASE ATHENA_OUTPUT_LOCATION
      = inl e →
      run.2 = [submit]
      ∧ ∃ error,
          run.1 = Return (PDict [ ("success", PBool false);
                                  ("error", PStr error) ])
          ∧ ∀ text, exception_text e text → error = text)
  ∧ count is_start run.2 = 1
  ∧ count is_fetch run.2 ≤ 1.
Proof.
  intros run submit. subst run submit. split_and!.
  - intros id k st Hstart Hk Hrun Hpoll Hs.
    rewrite (execute_submitted _ _ id Hstart).
    replace max_attempts with ((k - 1) + S (60 - k)) by (unfold max_attempts; lia).
    rewrite wait_running by (intros j Hj; by apply Hrun).
    rewrite (wait_failed _ _ _ _ st) by assumption. cbn [fst snd].
    split_and!; [reflexivity|by intros reason ->|by intros ->].
  - intros e Hstart. rewrite (execute_submit_failed _ _ e Hstart).
    cbn [fst snd]. split; [reflexivity|].
    exists (str_exception e). split; [reflexivity|].
    intros text Htext. by apply str_exception_text.
  - destruct (start_query_execution athena query ATHENA_DATABASE
                ATHENA_OUTPUT_LOCATION) as [e|id] eqn:Hstart.
    + by rewrite (execute_submit_failed _ _ e).
    + rewrite (execute_submitted _ _ id Hstart).
      destruct (wait_counts athena id max_attempts 0) as (H0 & _).
      cbn [snd]. rewrite count_cons. cbn [is_start]. rewrite H0. reflexivity.
  - destruct (start_query_execution athena query ATHENA_DATABASE
                ATHENA_OUTPUT_LOCATION) as [e|id] eqn:Hstart.
    + rewrite (execute_submit_failed _ _ e) by done. cbn. lia.
    + rewrite (execute_submitted _ _ id Hstart).
      destruct (wait_counts athena id max_attempts 0) as (_ & H1 & _).
      cbn [snd]. rewrite count_cons. cbn [is_fetch]. exact H1.
Qed.

Lemma execute_failure_witness :
  (let athena :=
     scripted_service
       (settles_at 3 {| State := "FAILED";
                        StateChangeReason := Some "SYNTAX_ERROR" |})
       table_ab in
   (execute_athena_query athena "SELECT").1
   = Return (PDict [ ("success", PBool false);
                     ("error", PStr "SYNTAX_ERROR") ])
   ∧ (execute_athena_query athena "SELECT").2
     = [ StartQueryExecution "SELECT" ATHENA_DATABASE ATHENA_OUTPUT_LOCATION;
         GetQueryExecution "q-1"; Sleep 1; GetQueryExecution "q-1"; Sleep 1;
         GetQueryExecution "q-1" ])
  ∧ (let athena :=
       {| start_query_execution := λ _ _ _,
            inl (ClientError "InvalidRequestException");
          get_query_execution := λ _ _, inr (status "RUNNING");
          get_query_results := λ _ _, inr table_ab |} in
     execute_athena_query athena "SELECT"
     = (Return (PDict [ ("success", PBool false);
                        ("error", PStr "InvalidRequestException") ]),
        [ StartQueryExecution "SELECT" ATHENA_DATABASE
            ATHENA_OUTPUT_LOCATION ])).
Proof.
  split.
  - intros athena.
    destruct (execute_reports_service_failure athena "SELECT") as [Hfail _].
    destruct (Hfail "q-1" 3 {| State := "FAILED";
                               StateChangeReason := Some "SYNTAX_ERROR" |})
      as (Hcalls & Hreason & _).
    + reflexivity.
    + lia.
    + intros j Hj. exists (status "RUNNING"). split.
      * destruct j as [|[|j]]; [reflexivity..|lia].
      * repeat split; discriminate.
    + reflexivity.
    + left. reflexivity.
    + split; [by apply Hreason|exact Hcalls].
  - intros athena.
    destruct (execute_reports_service_failure athena "SELECT")
      as (_ & Hsubmit & _).
    destruct (Hsubmit (ClientError "InvalidRequestException") eq_refl)
      as (Hcalls & error & Hvalue & Htext).
    rewrite (Htext "InvalidRequestException") in Hvalue by constructor.
    destruct (execute_athena_query athena "SELECT") as [o calls].
    cbn [fst snd] in *. by subst.
Defined.

(** A result set that parses has a cell for every label in every data
    row. *)
Lemma parse_results_Return_complete (result : ResultSet) (v : pyval) :
  parse_results result = Return v →
  ∀ row, row ∈ drop 1 (Rows result) →
         length (ColumnInfo result) ≤ length row.
Proof.
  intros Hparse row Hrow.
  destruct (decide (length (ColumnInfo result) ≤ length row)) as [|Hshort];
    [done|].
  unfold parse_results in Hparse.
  rewrite parse_rows_short in Hparse; [done|].
  exists row. split; [done|lia].
Qed.

(** The rows of a success dictionary are the materialized data rows of the
    result set that was fetched. *)
Lemma execute_success_rows (athena : AthenaClient) (query : string)
    (columns : list string) (rows : list pyval) :
  (execute_athena_query athena query).1 = Return (query_success columns rows) →
  ∃ id result,
    get_query_results athena id 100 = inr result
    ∧ columns = ColumnInfo result
    ∧ length rows = length (Rows result) - 1
    ∧ Forall2 (materialized_row columns) (drop 1 (Rows result)) rows.
Proof.
  intros Hrun.
  destruct (execute_success_inv _ _ _ _ Hrun)
    as (id & n & result & _ & Hfetch & Hparse & _).
  exists id, result. split; [done|].
  destruct (parse_results_spec result
              (parse_results_Return_complete _ _ Hparse))
    as (rows' & Hparse' & Hlen & Hrows).
  rewrite Hparse in Hparse'.
  assert (query_success columns rows
          = query_success (ColumnInfo result) rows') as Heq by congruence.
  pose proof (query_success_columns_inj _ _ _ _ Heq) as ->.
  apply query_success_inj in Heq as ->. done.
Qed.

(** The answer of the handler when the service reports SUCCEEDED on poll
    [k] and serves a result set with a cell for every label in every data
    row. *)
Lemma handler_success_of_service (athena : AthenaClient)
    (event : gmap string string) (context : LambdaContext) (name : string)
    (i : nat) (query_template query id : string) (k : nat) (st : QueryStatus)
    (result : ResultSet) :
  original_tool_name context = Return name →
  str_find delimiter name = Some i →
  dict_get (str_from (i + 3) name) PREDEFINED_QUERIES = Some query_template →
  str_format query_template event = Return query →
  start_query_execution athena query ATHENA_DATABASE ATHENA_OUTPUT_LOCATION
  = inr id →
  1 ≤ k ≤ 60 →
  (∀ j, j < k - 1 → running athena id j) →
  get_query_execution athena id (k - 1) = inr st →
  State st = "SUCCEEDED" →
  get_query_results athena id 100 = inr result →
  (∀ row, row ∈ drop 1 (Rows result) →
          length (ColumnInfo result) ≤ length row) →
  ∃ rows,
    (lambda_handler athena event context).1
    = Return (success_envelope (PList rows)
                (PList (PStr <$> ColumnInfo result))
                (PInt (length (Rows result) - 1)))
    ∧ length rows = length (Rows result) - 1
    ∧ Forall2 (materialized_row (ColumnInfo result))
        (drop 1 (Rows result)) rows.
Proof.
  intros Hname Hfind Hget Hformat Hstart Hk Hrun Hpoll Hs Hfetch Hcomplete.
  destruct (parse_results_spec result Hcomplete)
    as (rows & Hparse & Hlen & Hrows).
  exists rows. split_and!; [|done..].
  rewrite <- Hlen.
  erewrite lambda_handler_of_tool; [reflexivity|done..|].
  eapply handle_tool_success_outcome; [done..|].
  rewrite (execute_succeeded _ _ id k st Hstart Hk Hrun Hpoll Hs).
  cbn [fst]. by rewrite (fetch_results_outcome _ _ result Hfetch), Hparse.
Qed.

(** C8: when the execution succeeds, dispatch returns the dictionary with
    status "success", the data rows, and a metadata block holding the
    column list and a row count equal to the number of rows; the column
    list is the one the service reported and the rows are the materialized
    data rows of the fetched result set, one per data row; this is so
    whenever the service reports SUCCEEDED on a poll within the 60 and
    serves a result set with a cell for every label in every data row; for
    [get_inventory_status] with warehouse WH001 and a service that answers
    SUCCEEDED to the first poll and serves a header and one data row, the
    data is that one materialized row and the row count is 1. *)
Theorem dispatch_success_metadata (athena : AthenaClient)
    (context : LambdaContext) (name : string) (i : nat) :
  original_tool_name context = Return name →
  str_find delimiter name = Some i →
  (∀ event query_template query columns rows,
      dict_get (str_from (i + 3) name) PREDEFINED_QUERIES
      = Some query_template →
      str_format query_template event = Return query →
      (execute_athena_query athena query).1
      = Return (PDict [ ("success", PBool true);
                        ("columns", PList (PStr <$> columns));
                        ("rows", PList rows);
                        ("row_count", PInt (length rows)) ]) →
      (lambda_handler athena event context).1
      = Return (PDict [ ("status", PStr "success");
                        ("data", PList rows);
                        ("metadata",
                         PDict [ ("columns", PList (PStr <$> columns));
                                 ("row_count", PInt (length rows)) ]) ])
      ∧ ∃ id result,
          get_query_results athena id 100 = inr result
          ∧ columns = ColumnInfo result
          ∧ length rows = length (Rows result) - 1
          ∧ Forall2 (materialized_row columns) (drop 1 (Rows result)) rows)
  ∧ (∀ event query_template query id k st result,
        dict_get (str_from (i + 3) name) PREDEFINED_QUERIES
        = Some query_template →
        str_format query_template event = Return query →
        start_query_execution athena query ATHENA_DATABASE
          ATHENA_OUTPUT_LOCATION = inr id →
        1 ≤ k ≤ 60 →
        (∀ j, j < k - 1 → running athena id j) →
        get_query_execution athena id (k - 1) = inr st →
        State st = "SUCCEEDED" →
        get_query_results athena id 100 = inr result →
        (∀ row, row ∈ drop 1 (Rows result) →
                length (ColumnInfo result) ≤ length row) →
        ∃ rows,
          (lambda_handler athena event context).1
          = Return (PDict [ ("status", PStr "success");
                            ("data", PList rows);
                            ("metadata",
                             PDict [ ("columns",
                                      PList (PStr <$> ColumnInfo result));
                                     ("row_count",
                                      PInt (length (Rows result) - 1)) ]) ])
          ∧ length rows = length (Rows result) - 1
          ∧ Forall2 (materialized_row (ColumnInfo result))
              (drop 1 (Rows result)) rows)
  ∧ (∀ id st header row columns,
        str_from (i + 3) name = "get_inventory_status" →
        (∀ query, start_query_execution athena query ATHENA_DATABASE
                    ATHENA_OUTPUT_LOCATION = inr id) →
        get_query_execution athena id 0 = inr st →
        State st = "SUCCEEDED" →
        get_query_results athena id 100
        = inr {| ColumnInfo := columns; Rows := [header; row] |} →
        length columns ≤ length row →
        ∃ data,
          materialized_row columns row data
          ∧ (lambda_handler athena {[ "warehouse_id" := "WH001" ]} context).1
            = Return (PDict [ ("status", PStr "success");
                              ("data", PList [data]);
                              ("metadata",
                               PDict [ ("columns", PList (PStr <$> columns));
                                       ("row_count", PInt 1) ]) ])).
Proof.
  intros Hname Hfind. split_and!.
  - intros event query_template query columns rows Hget Hformat Hrun.
    split; [|by apply (execute_success_rows athena query)].
    erewrite lambda_handler_of_tool; [reflexivity|done..|].
    by eapply handle_tool_success_outcome.
  - intros event query_template query id k st result.
    apply (handler_success_of_service _ _ _ _ _ _ _ _ _ _ _ Hname Hfind).
  - intros id st header row columns Htool Hstart Hpoll Hs Hfetch Hlen.
    destruct (str_format get_inventory_status_template
                {[ "warehouse_id" := "WH001" ]}) as [query| |] eqn:Hformat;
      [|by vm_compute in Hformat..].
    destruct (handler_success_of_service athena
                {[ "warehouse_id" := "WH001" ]} context name i
                get_inventory_status_template query id 1 st
                {| ColumnInfo := columns; Rows := [header; row] |}
                Hname Hfind)
      as (rows & Hanswer & Hrows_len & Hrows);
      [by rewrite Htool|done|done|lia|intros j Hj; lia|done..| |].
    { intros r Hr. cbn in Hr. by apply list_elem_of_singleton in Hr as ->. }
    cbn in Hrows, Hrows_len.
    destruct rows as [|data [|? ?]]; [done| |done].
    exists data. split; [|exact Hanswer].
    by apply Forall2_cons_1 in Hrows as [Hdata _].
Qed.

Lemma dispatch_success_witness :
  let stock :=
    {| ColumnInfo := ["product_id"; "quantity"];
       Rows := [ [Some "product_id"; Some "quantity"];
                 [Some "P-17"; None] ] |} in
  let athena := scripted_service (settles_at 1 (status "SUCCEEDED")) stock in
  let context := invocation "gateway___get_inventory_status" in
  original_tool_name context = Return "gateway___get_inventory_status"
  ∧ str_find delimiter "gateway___get_inventory_status" = Some 7
  ∧ (lambda_handler athena {[ "warehouse_id" := "WH001" ]} context).1
    = Return (PDict [ ("status", PStr "success");
                      ("data",
                       PList [ PDict [ ("product_id", PStr "P-17");
                                       ("quantity", PStr EmptyString) ] ]);
                      ("metadata",
                       PDict [ ("columns",
                                PList [PStr "product_id"; PStr "quantity"]);
                               ("row_count", PInt 1) ]) ]).
Proof.
  intros stock athena context. split; [reflexivity|]. split; [reflexivity|].
  destruct (dispatch_success_metadata athena context
              "gateway___get_inventory_status" 7 eq_refl eq_refl)
    as [Hgeneral _].
  refine (proj1 (Hgeneral {[ "warehouse_id" := "WH001" ]}
            get_inventory_status_template inventory_query_WH001
            ["product_id"; "quantity"]
            [ PDict [ ("product_id", PStr "P-17");
                      ("quantity", PStr EmptyString) ] ] _ _ _)).
  - reflexivity.
  - vm_compute. reflexivity.
  - vm_compute. reflexivity.
Defined.

Lemma early_return_lacks_status (error : string) :
  conforms_envelope (PDict [ ("success", PBool false); ("error", PStr error) ])
  = false.
Proof. reflexivity. Qed.

(** C5: for a tool identifier that is not in the table, whatever the
    parameters are, the handler returns the dictionary with "success" false
    and the error "Unknown tool: " followed by the identifier, and makes no
    call to the service; that dictionary is not an envelope of the external
    shape: it has no "status". *)
Theorem dispatch_unknown_tool (athena : AthenaClient)
    (event : gmap string string) (context : LambdaContext) (name : string)
    (i : nat) :
  original_tool_name context = Return name →
  str_find delimiter name = Some i →
  dict_get (str_from (i + 3) name) PREDEFINED_QUERIES = None →
  lambda_handler athena event context
  = (Return (PDict [ ("success", PBool false);
                     ("error",
                      PStr ("Unknown tool: " +:+ str_from (i + 3) name)) ]),
     [])
  ∧ conforms_envelope
      (PDict [ ("success", PBool false);
               ("error",
                PStr ("Unknown tool: " +:+ str_from (i + 3) name)) ])
    = false.
Proof.
  intros Hname Hfind Hget. split; [|apply early_return_lacks_status].
  rewrite (lambda_handler_of_tool _ _ _ name i
             (unknown_tool (str_from (i + 3) name)) Hname Hfind);
    by rewrite handle_tool_unknown.
Qed.

Lemma dispatch_unknown_tool_witness :
  let athena := scripted_service (settles_at 1 (status "SUCCEEDED")) table_ab in
  let context := invocation "gateway___list_customers" in
  original_tool_name context = Return "gateway___list_customers"
  ∧ str_find delimiter "gateway___list_customers" = Some 7
  ∧ dict_get "list_customers" PREDEFINED_QUERIES = None
  ∧ lambda_handler athena {[ "limit" := "5" ]} context
    = (Return (PDict [ ("success", PBool false);
                       ("error", PStr "Unknown tool: list_customers") ]), [])
  ∧ conforms_envelope
      (PDict [ ("success", PBool false);
               ("error", PStr "Unknown tool: list_customers") ]) = false.
Proof.
  intros athena context. split_and!; [reflexivity..| |];
    apply (dispatch_unknown_tool athena {[ "limit" := "5" ]} context
             "gateway___list_customers" 7); reflexivity.
Defined.

(** C3: for a template of the table and parameters that lack one of its
    placeholders, the handler returns the dictionary with "success" false
    and the error "Missing required parameter: " followed by the name, in
    quotes, of the first missing placeholder in template order, and makes
    no call to the service; for [get_product_performance] and no parameters
    the name is months; that dictionary is not an envelope of the external
    shape: it has no "status". *)
Theorem dispatch_missing_parameter (athena : AthenaClient)
    (context : LambdaContext) (name : string) (i : nat) :
  original_tool_name context = Return name →
  str_find delimiter name = Some i →
  (∀ (event : gmap string string) query_template,
      dict_get (str_from (i + 3) name) PREDEFINED_QUERIES
      = Some query_template →
      (∃ p, p ∈ placeholders query_template ∧ event !! p = None) →
      ∃ before missing after,
        placeholders query_template = before ++ missing :: after
        ∧ (∀ m, m ∈ before → is_Some (event !! m))
        ∧ event !! missing = None
        ∧ lambda_handler athena event context
          = (Return (PDict [ ("success", PBool false);
                             ("error",
                              PStr ("Missing required parameter: "
                                    +:+ "'" +:+ missing +:+ "'")) ]),
             [])
        ∧ conforms_envelope
            (PDict [ ("success", PBool false);
                     ("error",
                      PStr ("Missing required parameter: "
                            +:+ "'" +:+ missing +:+ "'")) ])
          = false)
  ∧ (str_from (i + 3) name = "get_product_performance" →
     lambda_handler athena ∅ context
     = (Return (PDict [ ("success", PBool false);
                        ("error",
                         PStr "Missing required parameter: 'months'") ]),
        [])
     ∧ conforms_envelope
         (PDict [ ("success", PBool false);
                  ("error", PStr "Missing required parameter: 'months'") ])
       = false).
Proof.
  intros Hname Hfind.
  assert (∀ (event : gmap string string) query_template missing,
      dict_get (str_from (i + 3) name) PREDEFINED_QUERIES
      = Some query_template →
      str_format query_template event = Raise (KeyError missing) →
      lambda_handler athena event context
      = (Return (missing_parameter (KeyError missing)), [])) as Hdispatch.
  { intros event query_template missing Hget Hformat.
    rewrite (lambda_handler_of_tool _ _ _ name i
               (missing_parameter (KeyError missing)) Hname Hfind);
      by rewrite (handle_tool_missing _ _ _ query_template missing). }
  split.
  - intros event query_template Hget Hlacks.
    destruct (str_format_first_missing _ _ Hlacks)
      as (before & missing & after & Hsplit & Hbefore & Hmissing & Hformat).
    exists before, missing, after.
    split_and!; [done..| |apply early_return_lacks_status].
    rewrite (Hdispatch event query_template missing Hget Hformat).
    unfold missing_parameter, str_exception.
    rewrite (py_repr_plain missing); [reflexivity|].
    apply (PREDEFINED_QUERIES_plain _ _ _ Hget).
    rewrite Hsplit. apply elem_of_app. right. left.
  - intros Htool. split; [|reflexivity].
    rewrite (Hdispatch ∅ get_product_performance_template "months");
      [reflexivity|by rewrite Htool|].
    vm_compute. reflexivity.
Qed.

Lemma dispatch_missing_parameter_witness :
  let athena := scripted_service (settles_at 1 (status "SUCCEEDED")) table_ab in
  let context := invocation "gateway___get_product_performance" in
  original_tool_name context = Return "gateway___get_product_performance"
  ∧ str_find delimiter "gateway___get_product_performance" = Some 7
  ∧ placeholders get_product_performance_template = ["months"; "limit"]
  ∧ lambda_handler athena ∅ context
    = (Return (PDict [ ("success", PBool false);
                       ("error",
                        PStr "Missing required parameter: 'months'") ]),
       [])
  ∧ lambda_handler athena {[ "months" := "6" ]} context
    = (Return (PDict [ ("success", PBool false);
                       ("error",
                        PStr "Missing required parameter: 'limit'") ]),
       []).
Proof.
  intros athena context.
  split; [reflexivity|]. split; [reflexivity|].
  split; [vm_compute; reflexivity|].
  destruct (dispatch_missing_parameter athena context
              "gateway___get_product_performance" 7 eq_refl eq_refl)
    as [Hgeneral Hscenario].
  split; [by apply Hscenario|].
  destruct (Hgeneral {[ "months" := "6" ]} get_product_performance_template)
    as (before & missing & after & Hsplit & Hbefore & Hmissing & Hanswer & _).
  - reflexivity.
  - exists "limit". split; [|reflexivity]. vm_compute. right. left.
  - assert (missing = "limit") as ->; [|exact Hanswer].
    vm_compute in Hsplit.
    destruct before as [|m1 [|m2 before]].
    + injection Hsplit as <- _. vm_compute in Hmissing. discriminate.
    + injection Hsplit as _ <- _. reflexivity.
    + injection Hsplit as _ _ Hrest. by destruct before.
Defined.

(** X1: an exception raised by a status poll, after non-terminal polls,
    ends the execution: the coordinator returns the dictionary with
    "success" false and the text of the exception as error, the poll is
    not repeated and nothing is fetched. *)
Theorem execute_poll_exception (athena : AthenaClient) (query id : string)
    (k : nat) (e : exception) (text : string) :
  start_query_execution athena query ATHENA_DATABASE ATHENA_OUTPUT_LOCATION
  = inr id →
  1 ≤ k ≤ 60 →
  (∀ j, j < k - 1 → running athena id j) →
  get_query_execution athena id (k - 1) = inl e →
  exception_text e text →
  execute_athena_query athena query
  = (Return (PDict [ ("success", PBool false); ("error", PStr text) ]),
     StartQueryExecution query ATHENA_DATABASE ATHENA_OUTPUT_LOCATION
       :: polls_before id (k - 1) ++ [GetQueryExecution id]).
Proof.
  intros Hstart Hk Hrun Hpoll Htext.
  rewrite (execute_submitted _ _ id Hstart).
  replace max_attempts with ((k - 1) + S (60 - k)) by (unfold max_attempts; lia).
  rewrite wait_running by (intros j Hj; by apply Hrun).
  rewrite (wait_raise _ _ _ _ e) by assumption.
  rewrite <- (str_exception_text e text Htext). reflexivity.
Qed.

Lemma execute_poll_exception_witness :
  let athena :=
    {| start_query_execution := λ _ _ _, inr "q-1";
       get_query_execution := λ _ attempt,
         if attempt <? 1 then inr (status "RUNNING")
         else inl (ClientError "ThrottlingException");
       get_query_results := λ _ _, inr table_ab |} in
  execute_athena_query athena "SELECT 1"
  = (Return (PDict [ ("success", PBool false);
                     ("error", PStr "ThrottlingException") ]),
     [ StartQueryExecution "SELECT 1" ATHENA_DATABASE ATHENA_OUTPUT_LOCATION;
       GetQueryExecution "q-1"; Sleep 1; GetQueryExecution "q-1" ]).
Proof.
  intros athena.
  apply (execute_poll_exception athena "SELECT 1" "q-1" 2
           (ClientError "ThrottlingException")).
  - reflexivity.
  - lia.
  - intros j Hj. exists (status "RUNNING"). split.
    + destruct j as [|j]; [reflexivity|lia].
    + repeat split; discriminate.
  - reflexivity.
  - constructor.
Defined.

(** X2: when the query has succeeded but fetching its results raises an
    exception, the coordinator returns the dictionary with "success" false
    and the text of the exception as error; the fetch is made once and is
    the last call. *)
Theorem execute_fetch_exception (athena : AthenaClient) (query id : string)
    (k : nat) (st : QueryStatus) (e : exception) (text : string) :
  start_query_execution athena query ATHENA_DATABASE ATHENA_OUTPUT_LOCATION
  = inr id →
  1 ≤ k ≤ 60 →
  (∀ j, j < k - 1 → running athena id j) →
  get_query_execution athena id (k - 1) = inr st →
  State st = "SUCCEEDED" →
  get_query_results athena id 100 = inl e →
  exception_text e text →
  execute_athena_query athena query
  = (Return (PDict [ ("success", PBool false); ("error", PStr text) ]),
     StartQueryExecution query ATHENA_DATABASE ATHENA_OUTPUT_LOCATION
       :: polls_before id (k - 1)
       ++ [GetQueryExecution id; GetQueryResults id 100])
  ∧ count is_fetch (execute_athena_query athena query).2 = 1.
Proof.
  intros Hstart Hk Hrun Hpoll Hs Hfetch Htext.
  rewrite (execute_succeeded _ _ id k st Hstart Hk Hrun Hpoll Hs).
  unfold fetch_results. rewrite Hfetch. cbn [fst snd].
  rewrite <- (str_exception_text e text Htext). split; [reflexivity|].
  rewrite count_cons, count_fetch_polls_before. reflexivity.
Qed.

Lemma execute_fetch_exception_witness :
  let athena :=
    {| start_query_execution := λ _ _ _, inr "q-1";
       get_query_execution := λ _ _, inr (status "SUCCEEDED");
       get_query_results := λ _ _, inl (KeyError "ResultSet") |} in
  execute_athena_query athena "SELECT 1"
  = (Return (PDict [ ("success", PBool false);
                     ("error", PStr "'ResultSet'") ]),
     [ StartQueryExecution "SELECT 1" ATHENA_DATABASE ATHENA_OUTPUT_LOCATION;
       GetQueryExecution "q-1"; GetQueryResults "q-1" 100 ]).
Proof.
  intros athena.
  refine (proj1 (execute_fetch_exception athena "SELECT 1" "q-1" 1
                   (status "SUCCEEDED") (KeyError "ResultSet") "'ResultSet'"
                   eq_refl _ _ eq_refl eq_refl eq_refl _)).
  - lia.
  - intros j Hj. lia.
  - apply (text_KeyError "ResultSet"). reflexivity.
Defined.

(** X3: one data row with fewer cells than there are column labels makes
    parsing raise the index error, and the whole execution returns the
    dictionary with "success" false and the error "list index out of
    range", which has no rows: the rows that were complete are not returned
    either. *)
Theorem execute_short_row_loses_all_rows (athena : AthenaClient)
    (query id : string) (k : nat) (st : QueryStatus) (result : ResultSet) :
  start_query_execution athena query ATHENA_DATABASE ATHENA_OUTPUT_LOCATION
  = inr id →
  1 ≤ k ≤ 60 →
  (∀ j, j < k - 1 → running athena id j) →
  get_query_execution athena id (k - 1) = inr st →
  State st = "SUCCEEDED" →
  get_query_results athena id 100 = inr result →
  (∃ row, row ∈ drop 1 (Rows result)
          ∧ length row < length (ColumnInfo result)) →
  parse_results result = Raise (IndexError "list index out of range")
  ∧ execute_athena_query athena query
    = (Return (PDict [ ("success", PBool false);
                       ("error", PStr "list index out of range") ]),
       StartQueryExecution query ATHENA_DATABASE ATHENA_OUTPUT_LOCATION
         :: polls_before id (k - 1)
         ++ [GetQueryExecution id; GetQueryResults id 100])
  ∧ ∀ d, (execute_athena_query athena query).1 = Return (PDict d) →
         dict_get "rows" d = None.
Proof.
  intros Hstart Hk Hrun Hpoll Hs Hfetch Hshort.
  assert (parse_results result = Raise (IndexError "list index out of range"))
    as Hparse.
  { unfold parse_results. by rewrite parse_rows_short. }
  split; [exact Hparse|].
  rewrite (execute_succeeded _ _ id k st Hstart Hk Hrun Hpoll Hs).
  rewrite (fetch_results_outcome _ _ result Hfetch), Hparse.
  split; [reflexivity|].
  cbn [fst]. by intros d [= <-].
Qed.

Lemma execute_short_row_witness :
  let result :=
    {| ColumnInfo := ["a"; "b"];
       Rows := [ [Some "a"; Some "b"]; [Some "1"; Some "2"]; [Some "3"] ] |} in
  let athena := scripted_service (settles_at 1 (status "SUCCEEDED")) result in
  (∃ row, row ∈ drop 1 (Rows result)
          ∧ length row < length (ColumnInfo result))
  ∧ execute_athena_query athena "SELECT 1"
    = (Return (PDict [ ("success", PBool false);
                       ("error", PStr "list index out of range") ]),
       [ StartQueryExecution "SELECT 1" ATHENA_DATABASE ATHENA_OUTPUT_LOCATION;
         GetQueryExecution "q-1"; GetQueryResults "q-1" 100 ]).
Proof.
  intros result athena.
  assert (∃ row, row ∈ drop 1 (Rows result)
                 ∧ length row < length (ColumnInfo result)) as Hshort.
  { exists [Some "3"]. split; [|cbn; lia]. cbn. right. left. }
  split; [exact Hshort|].
  refine (proj1 (proj2 (execute_short_row_loses_all_rows athena "SELECT 1"
                          "q-1" 1 (status "SUCCEEDED") result eq_refl _ _
                          eq_refl eq_refl eq_refl Hshort))).
  - lia.
  - intros j Hj. lia.
Defined.
